(** * VerifAI backend: geofenced session initiation and the video pipeline

    A shallow embedding of [backend/main.py] and [backend/report_generator.py]:
    the two request handlers [initiate_session] and [upload_video], the
    helper [calculate_distance], and [generate_pdf].

    Conventions of the embedding.
    - Python floats are idealised as real numbers (rounding, infinities and
      NaN are outside the model of coordinates).
    - The Supabase table [inspections] is a list of rows, each row a Python
      dict; every call to an external service is recorded in a trace and may
      fail, as decided by the environment of the request.
    - Exceptions are explicit: a handler returns a value or raises. *)

From Stdlib Require Import Reals Lra Lia ZArith String Ascii List.
From Stdlib Require Import DecimalString DecimalZ.
From stdpp Require Import gmap strings list fin_maps.

Set Warnings "-register-all".

Local Open Scope string_scope.
Local Open Scope Z_scope.

(** ** Python values *)

Module Py.

(** A float: a real number, or one of the three special values that
    [json.loads] can produce from [NaN], [Infinity] and [-Infinity]. *)
Inductive pyfloat :=
| Fin (r : R)
| Inf (negative : bool)
| NaN.

Inductive pyval :=
| PNone
| PBool (b : bool)
| PInt (n : Z)
| PFloat (f : pyfloat)
| PStr (s : string)
| PList (l : list pyval)
| PDict (d : gmap string pyval).

(** [str(n)] for an int. *)
Definition str_int (n : Z) : string := NilZero.string_of_int (Z.to_int n).

(** [int(s)] for a decimal string; [None] when Python raises ValueError. *)
Definition int_str (s : string) : option Z :=
  option_map Z.of_int (NilZero.int_of_string s).

Definition is_digit (c : ascii) : bool :=
  let n := N_of_ascii c in (48 <=? n)%N && (n <=? 57)%N.

(** [s.isdigit()] on a non-empty ASCII string. *)
Fixpoint all_digits (s : string) : bool :=
  match s with
  | EmptyString => true
  | String c s' => is_digit c && all_digits s'
  end.

(** [s.split(sep)[-1]]: the part of [s] after the last [sep]. *)
Fixpoint split_last_from (sep : ascii) (acc : string) (s : string) : string :=
  match s with
  | EmptyString => acc
  | String c s' =>
      if Ascii.eqb c sep then split_last_from sep EmptyString s'
      else split_last_from sep (acc ++ String c EmptyString) s'
  end.

Definition split_last (sep : ascii) (s : string) : string :=
  split_last_from sep EmptyString s.

(** Exceptions. [HTTPException] is FastAPI's; it derives from [Exception],
    as every other exception the handlers can meet. *)
Inductive exn :=
| HTTPException (status_code : Z) (detail : string)
| PyExc (cls : string) (msg : string).

(** [str(e)]. Starlette prints an HTTPException as "<status>: <detail>". *)
Definition str_exn (e : exn) : string :=
  match e with
  | HTTPException c d => str_int c ++ ": " ++ d
  | PyExc _ m => m
  end.

Inductive result (A : Type) :=
| Return (a : A)
| Raise (e : exn).
Arguments Return {A} a.
Arguments Raise {A} e.

Definition is_return {A} (r : result A) : bool :=
  match r with Return _ => true | Raise _ => false end.

(** [d.get(key, default)]: AttributeError on anything but a dict. *)
Definition py_get (v : pyval) (key : string) (default : pyval) : result pyval :=
  match v with
  | PDict d => Return (match d !! key with Some x => x | None => default end)
  | _ => Raise (PyExc "AttributeError" "object has no attribute 'get'")
  end.

End Py.
Export Py.

(** ** The state-and-exception monad of a request handler *)

Module Eff.

Section Monad.
Context {S : Type}.

Definition M (A : Type) : Type := S -> result A * S.

Definition ret {A} (a : A) : M A := fun s => (Return a, s).

Definition raise {A} (e : exn) : M A := fun s => (Raise e, s).

Definition bind {A B} (m : M A) (k : A -> M B) : M B :=
  fun s =>
    match m s with
    | (Return a, s') => k a s'
    | (Raise e, s') => (Raise e, s')
    end.

(** [try: m  except Exception as e: h e]. What [m] did to the state
    before it raised stays done. *)
Definition try_except {A} (m : M A) (h : exn -> M A) : M A :=
  fun s =>
    match m s with
    | (Return a, s') => (Return a, s')
    | (Raise e, s') => h e s'
    end.

Definition lift {A} (r : result A) : M A := fun s => (r, s).

Definition modify (f : S -> S) : M unit := fun s => (Return tt, f s).

Definition gets {A} (f : S -> A) : M A := fun s => (Return (f s), s).
End Monad.

Arguments M S A : clear implicits.

End Eff.
Export Eff.

Declare Scope eff_scope.
Delimit Scope eff_scope with eff.
Notation "x <- m ;; k" := (bind m (fun x => k))
  (at level 100, m at next level, right associativity) : eff_scope.
Notation "m ;; k" := (bind m (fun _ => k))
  (at level 100, right associativity) : eff_scope.
Local Open Scope eff_scope.

(** A dict display [{k1: v1, ...}]. *)
Definition dict (items : list (string * pyval)) : pyval :=
  PDict (list_to_map items).

(** ** GeoFence: [calculate_distance] (main.py, lines 38-49) *)

Module Geo.
Local Open Scope R_scope.

(** [math.radians] *)
Definition radians (x : R) : R := x * (PI / 180).

(** [math.atan2 y x]: the angle of the point [(x, y)], in (-pi, pi]. *)
Definition atan2 (y x : R) : R :=
  if Rlt_dec 0 x then atan (y / x)
  else if Rlt_dec x 0 then
    (if Rle_dec 0 y then atan (y / x) + PI else atan (y / x) - PI)
  else if Rlt_dec 0 y then PI / 2
  else if Rlt_dec y 0 then - (PI / 2)
  else 0.

Definition target_lat : R := 19.073892.
Definition target_long : R := 72.845470.
Definition max_distance : R := 500.

Definition calculate_distance (lat1 lon1 lat2 lon2 : R) : R :=
  let R_ := 6371000 in
  let phi1 := radians lat1 in
  let phi2 := radians lat2 in
  let delta_phi := radians (lat2 - lat1) in
  let delta_lambda := radians (lon2 - lon1) in
  let a := sin (delta_phi / 2) ^ 2 +
           cos phi1 * cos phi2 *
           sin (delta_lambda / 2) ^ 2 in
  let c := 2 * atan2 (sqrt a) (sqrt (1 - a)) in
  R_ * c.

(** The reference definition of the spec: the great-circle distance by the
    law of haversines, [d = 2 r asin (sqrt h)] with
    [h = hav (phi2 - phi1) + cos phi1 cos phi2 hav (lambda2 - lambda1)]
    and [hav x = sin^2 (x / 2)], on a sphere of radius [r]. *)
Definition hav (x : R) : R := sin (x / 2) ^ 2.

Definition haversine_distance (r lat1 lon1 lat2 lon2 : R) : R :=
  let phi1 := radians lat1 in
  let phi2 := radians lat2 in
  let lambda1 := radians lon1 in
  let lambda2 := radians lon2 in
  2 * r * asin (sqrt (hav (phi2 - phi1) +
                      cos phi1 * cos phi2 * hav (lambda2 - lambda1))).

Definition earth_radius : R := 6371000.

End Geo.
Export Geo.

(** ** The session store and the other external services *)

Module Store.

(** A record of the table, as the client sees it: a dict of columns. *)
Abbreviation row := (gmap string pyval).

(** Calls that leave the process. *)
Inductive event :=
| DbSelect (case_id : string)
| DbUpdate (patch : row) (case_id : string)
| DbInsert (r : row)
| StorageUpload (bucket path : string)
| Analyze (video_url : string) (expected_code : pyval)
| PdfOutput (file_name : string)
| FileOpen (file_name : string)
| FileRemove (file_name : string).

(** What a handler acts on: the table [inspections], the calls made so
    far (latest first), and [report_url], the one local variable of
    [upload_video] that is assigned inside a [try] block. *)
Record state := mkState {
  inspections : list row;
  trace : list event;
  report_url : pyval
}.

Definition set_inspections (f : list row -> list row) (s : state) : state :=
  mkState (f (inspections s)) (trace s) (report_url s).

Definition log (ev : event) (s : state) : state :=
  mkState (inspections s) (ev :: trace s) (report_url s).

Definition assign_report_url (v : pyval) (s : state) : state :=
  mkState (inspections s) (trace s) v.

(** The outcome the environment gives an external call: [Some msg] makes
    it raise. *)
Definition fault := option string.

(** An external call: recorded, then it raises or returns. A call that
    raises has changed nothing. *)
Definition attempt (ev : event) (f : fault) : M state unit :=
  modify (log ev) ;;
  match f with
  | Some msg => raise (PyExc "Exception" msg)
  | None => ret tt
  end.

(** [.eq("case_id", cid)] *)
Definition row_matches (cid : string) (r : row) : bool :=
  match r !! "case_id" with
  | Some (PStr s) => String.eqb s cid
  | _ => false
  end.

(** [supabase.table("inspections").select("*").eq("case_id", cid).execute().data] *)
Definition db_select (f : fault) (cid : string) : M state (list row) :=
  attempt (DbSelect cid) f ;;
  gets (fun s => List.filter (row_matches cid) (inspections s)).

(** [supabase.table("inspections").update(patch).eq("case_id", cid).execute()] *)
Definition apply_patch (patch : row) (cid : string) (r : row) : row :=
  if row_matches cid r then patch ∪ r else r.

Definition db_update (f : fault) (patch : row) (cid : string) : M state unit :=
  attempt (DbUpdate patch cid) f ;;
  modify (set_inspections (List.map (apply_patch patch cid))).

(** [supabase.table("inspections").insert(r).execute()] *)
Definition db_insert (f : fault) (r : row) : M state unit :=
  attempt (DbInsert r) f ;;
  modify (set_inspections (fun t => (t ++ [r])%list)).

(** Number of records of a case. *)
Definition count_case (cid : string) (t : list row) : nat :=
  length (List.filter (row_matches cid) t).

End Store.
Export Store.

(** ** The request handlers (main.py) and the report generator *)

Module Main.

(** [class LocationCheck(BaseModel)] *)
Record LocationCheck := mkLocationCheck {
  lat : R;
  long : R;
  case_id : string
}.

(** What the environment decides during one [initiate_session]:
    the draw of [random.randint(1000, 9999)] and the fate of the two
    database calls. *)
Record init_env := mkInitEnv {
  randint : Z;
  init_select : fault;
  init_write : fault
}.

(** The uploaded file of [upload_video]. *)
Record UploadFile := mkUploadFile {
  filename : option string;
  content_type : string;
  content : string
}.

(** How [analyze_video] (ai_engine.py) ends: it returns the cleaned text of
    the model's answer (line 131), or catches the exception of the
    generation step (line 135) or of any earlier step (line 142). *)
Inductive gateway_outcome :=
| Answered (clean_json : string)
| GenerationFailed (msg : string)
| GeneralError (msg : string).

(** What the environment decides during one [upload_video]. *)
Record upload_env := mkUploadEnv {
  uuid4 : string;
  videos_upload : fault;
  db_processing : fault;
  db_fetch : fault;
  gateway : string -> pyval -> gateway_outcome;
  db_verdict : fault;
  pdf_output : fault;
  pdf_open : fault;
  reports_upload : fault;
  db_report : fault;
  pdf_remove : fault
}.

Section Handlers.

(** [json.loads] on a str: the decoded value, or [None] for JSONDecodeError. *)
Variable json_decode : string -> option pyval.

(** [supabase.storage.from_(bucket).get_public_url(path)] *)
Variable get_public_url : string -> string -> string.

(** [json.loads(x)]: TypeError unless [x] is a str. *)
Definition json_loads (x : pyval) : result pyval :=
  match x with
  | PStr s =>
      match json_decode s with
      | Some v => Return v
      | None => Raise (PyExc "JSONDecodeError" "Expecting value")
      end
  | _ => Raise (PyExc "TypeError" "the JSON object must be str, bytes or bytearray")
  end.

(** main.py, lines 64-109. *)
Definition initiate_session (env : init_env) (data : LocationCheck) : M state pyval :=
  let dist := calculate_distance (lat data) (long data) target_lat target_long in
  if Rgt_dec dist max_distance then
    ret (dict [("allowed", PBool false);
               ("reason", PStr "You are too far from the location!")])
  else
    let otp_code := str_int (randint env) in
    try_except
      (existing <- db_select (init_select env) (case_id data) ;;
       match existing with
       | _ :: _ =>
           db_update (init_write env)
             (list_to_map [("gps_lat", PFloat (Fin (lat data)));
                           ("gps_long", PFloat (Fin (long data)));
                           ("status", PStr "pending");
                           ("verification_code", PStr otp_code)])
             (case_id data)
       | [] =>
           db_insert (init_write env)
             (list_to_map [("case_id", PStr (case_id data));
                           ("gps_lat", PFloat (Fin (lat data)));
                           ("gps_long", PFloat (Fin (long data)));
                           ("status", PStr "pending");
                           ("verification_code", PStr otp_code)])
       end ;;
       ret (dict [("allowed", PBool true);
                  ("session_id", PStr (case_id data));
                  ("verification_code", PStr otp_code)]))
      (fun e => raise (HTTPException 500 "Database Error")).

(** What [analyze_video] returns in each case: a str on success, a dict
    with the key [error] otherwise. *)
Definition gateway_value (o : gateway_outcome) : pyval :=
  match o with
  | Answered clean_json => PStr clean_json
  | GenerationFailed msg =>
      dict [("error", PStr ("AI Generation Failed: " ++ msg))]
  | GeneralError msg => dict [("error", PStr msg)]
  end.

(** ai_engine.py, [analyze_video]: one call to the gateway, which always
    returns. *)
Definition analyze_video (env : upload_env) (video_url : string)
    (expected_code : pyval) : M state pyval :=
  modify (log (Analyze video_url expected_code)) ;;
  ret (gateway_value (gateway env video_url expected_code)).

(** report_generator.py, [generate_pdf]. The FPDF calls only draw; the
    environment decides through [pdf_output] whether one of them raises. *)
Definition generate_pdf (env : upload_env) (session_id : string)
    (ai_data : pyval) : M state string :=
  let ai_data :=
    match ai_data with
    | PStr _ =>
        match json_loads ai_data with
        | Return v => v
        | Raise _ => dict []
        end
    | _ => ai_data
    end in
  status <- lift (py_get ai_data "verification_status" (PStr "UNKNOWN")) ;;
  liveness <- lift (py_get ai_data "liveness_check" (dict [])) ;;
  lift (py_get liveness "code_spoken_correctly" (PStr "N/A")) ;;
  lift (py_get liveness "voice_liveness_confidence" (PStr "N/A")) ;;
  lift (py_get liveness "detected_code_transcript" (PStr "")) ;;
  stock <- lift (py_get ai_data "stock_assessment" (dict [])) ;;
  lift (py_get stock "is_warehouse_environment" PNone) ;;
  lift (py_get stock "commercial_volume_detected" PNone) ;;
  lift (py_get stock "inventory_description" (PStr "No description provided.")) ;;
  lift (py_get ai_data "auditor_reasoning" (PStr "No reasoning provided.")) ;;
  let filename := "report_" ++ session_id ++ ".pdf" in
  attempt (PdfOutput filename) (pdf_output env) ;;
  ret filename.

(** Section F of [upload_video] (main.py, lines 168-199): the report is
    generated, uploaded and its URL saved, inside a [try] of its own whose
    handler only logs. The local variable [report_url] keeps the value it
    has when a statement raises. *)
Definition report_step (env : upload_env) (session_id : string)
    (ai_data : pyval) : M state unit :=
  modify (assign_report_url PNone) ;;
  try_except
    (pdf_filename <- generate_pdf env session_id ai_data ;;
     attempt (FileOpen pdf_filename) (pdf_open env) ;;
     attempt (StorageUpload "Reports" pdf_filename) (reports_upload env) ;;
     modify (assign_report_url
               (PStr (get_public_url "Reports" pdf_filename))) ;;
     db_update (db_report env)
       (list_to_map [("report_url",
                      PStr (get_public_url "Reports" pdf_filename))])
       session_id ;;
     attempt (FileRemove pdf_filename) (pdf_remove env))
    (fun _ => ret tt).

(** main.py, lines 115-211. *)
Definition upload_video (env : upload_env) (session_id : string)
    (file : UploadFile) : M state pyval :=
  try_except
    (file_ext <- match filename file with
                 | Some name => ret (split_last "." name)
                 | None => raise (PyExc "AttributeError"
                                    "'NoneType' object has no attribute 'split'")
                 end ;;
     let file_name := session_id ++ "_" ++ uuid4 env ++ "." ++ file_ext in
     attempt (StorageUpload "Videos" file_name) (videos_upload env) ;;
     let public_url := get_public_url "Videos" file_name in
     db_update (db_processing env)
       (list_to_map [("video_url", PStr public_url);
                     ("status", PStr "processing")])
       session_id ;;
     session_data <- db_select (db_fetch env) session_id ;;
     match session_data with
     | [] => raise (HTTPException 404 "Session not found")
     | first :: _ =>
         let expected_code :=
           match first !! "verification_code" with
           | Some v => v
           | None => PStr "0000"
           end in
         ai_result_json_str <- analyze_video env public_url expected_code ;;
         ai_data <- try_except (lift (json_loads ai_result_json_str))
                      (fun _ => ret (dict [("raw", ai_result_json_str)])) ;;
         db_update (db_verdict env)
           (list_to_map [("status", PStr "completed");
                         ("ai_result", ai_data)])
           session_id ;;
         report_step env session_id ai_data ;;
         url <- gets report_url ;;
         ret (dict [("status", PStr "success");
                    ("video_url", PStr public_url);
                    ("ai_verdict", ai_data);
                    ("report_url", url)])
     end)
    (fun e => raise (HTTPException 500 (str_exn e))).

End Handlers.

(** The HTTP status a handler's outcome is answered with. *)
Definition http_status (r : result pyval) : Z :=
  match r with
  | Return _ => 200
  | Raise (HTTPException c _) => c
  | Raise (PyExc _ _) => 500
  end.

End Main.
Export Main.

(** ** A decoder for JSON text

    [json.loads] on a str, as CPython's [json.decoder] reads it: the grammar
    of RFC 8259 with the constants [NaN], [Infinity] and [-Infinity], strict
    about control characters inside strings, nothing but blanks allowed
    after the value. A str is held as the bytes of its UTF-8 encoding. *)

Module Json.

Definition codes (s : string) : list N :=
  List.map N_of_ascii (list_ascii_of_string s).

Definition text (l : list N) : string :=
  string_of_list_ascii (List.map ascii_of_N l).

(** Blanks: space, tab, line feed, carriage return. *)
Definition is_ws (c : N) : bool :=
  ((c =? 32) || (c =? 9) || (c =? 10) || (c =? 13))%N.

Fixpoint skip_ws (s : list N) : list N :=
  match s with
  | c :: s' => if is_ws c then skip_ws s' else s
  | [] => []
  end.

Definition digit_of (c : N) : option Z :=
  if ((48 <=? c) && (c <=? 57))%N then Some (Z.of_N c - 48) else None.

(** The longest run of digits at the head of [s]: its value, its length,
    and what follows. *)
Fixpoint digits_from (acc : Z) (len : Z) (s : list N) : Z * Z * list N :=
  match s with
  | c :: s' =>
      match digit_of c with
      | Some d => digits_from (10 * acc + d) (len + 1) s'
      | None => (acc, len, s)
      end
  | [] => (acc, len, s)
  end.

Definition hex_of (c : N) : option N :=
  if ((48 <=? c) && (c <=? 57))%N then Some (c - 48)%N
  else if ((65 <=? c) && (c <=? 70))%N then Some (c - 55)%N
  else if ((97 <=? c) && (c <=? 102))%N then Some (c - 87)%N
  else None.

(** Four hexadecimal digits, as after a backslash and [u]. *)
Definition hex4 (s : list N) : option (N * list N) :=
  match s with
  | a :: b :: c :: d :: s' =>
      match hex_of a, hex_of b, hex_of c, hex_of d with
      | Some a, Some b, Some c, Some d =>
          Some (((a * 16 + b) * 16 + c) * 16 + d, s')%N
      | _, _, _, _ => None
      end
  | _ => None
  end.

(** The UTF-8 bytes of a code point. *)
Definition utf8 (cp : N) : list N :=
  (if cp <? 128 then [cp]
   else if cp <? 2048 then [192 + cp / 64; 128 + cp mod 64]
   else if cp <? 65536 then
     [224 + cp / 4096; 128 + (cp / 64) mod 64; 128 + cp mod 64]
   else
     [240 + cp / 262144; 128 + (cp / 4096) mod 64;
      128 + (cp / 64) mod 64; 128 + cp mod 64])%N.

(** The body of a string, after its opening quote (code 34); a backslash is
    code 92. [acc] holds the decoded bytes, latest first. *)
Fixpoint scan_string (fuel : nat) (acc : list N) (s : list N)
    : option (string * list N) :=
  match fuel with
  | O => None
  | S fuel =>
      match s with
      | [] => None
      | 34%N :: s' => Some (text (rev acc), s')
      | 92%N :: e :: s' =>
          let simple (c : N) := scan_string fuel (c :: acc) s' in
          match e with
          | 34%N => simple 34%N
          | 92%N => simple 92%N
          | 47%N => simple 47%N
          | 98%N => simple 8%N
          | 102%N => simple 12%N
          | 110%N => simple 10%N
          | 114%N => simple 13%N
          | 116%N => simple 9%N
          | 117%N =>
              match hex4 s' with
              | None => None
              | Some (u, s1) =>
                  let single := scan_string fuel (rev (utf8 u) ++ acc)%list s1 in
                  if ((55296 <=? u) && (u <=? 56319))%N then
                    match s1 with
                    | 92%N :: 117%N :: s2 =>
                        match hex4 s2 with
                        | Some (lo, s3) =>
                            if ((56320 <=? lo) && (lo <=? 57343))%N then
                              let cp := (65536 + (u - 55296) * 1024 + (lo - 56320))%N in
                              scan_string fuel (rev (utf8 cp) ++ acc)%list s3
                            else single
                        | None => single
                        end
                    | _ => single
                    end
                  else single
              end
          | _ => None
          end
      | 92%N :: [] => None
      | c :: s' =>
          if (c <? 32)%N then None else scan_string fuel (c :: acc) s'
      end
  end.

(** A number at the head of [s]: an optional minus sign; a zero, or a
    digit from 1 to 9 and any digits; then, each optional, a dot with one
    digit or more, and [e] or [E] with an optional sign and one digit or
    more. An int when it has neither fraction nor exponent, a float
    otherwise. *)
Definition scan_number (s : list N) : option (pyval * list N) :=
  let '(neg, s0) :=
    match s with 45%N :: s' => (true, s') | _ => (false, s) end in
  let int_part :=
    match s0 with
    | 48%N :: s' => Some (0, s')
    | c :: _ =>
        match digit_of c with
        | Some _ => let '(v, _, s') := digits_from 0 0 s0 in Some (v, s')
        | None => None
        end
    | [] => None
    end in
  match int_part with
  | None => None
  | Some (i, s1) =>
      let '(mant, flen, s2, has_frac) :=
        match s1 with
        | 46%N :: s' =>
            let '(m, len, s'') := digits_from i 0 s' in
            if len =? 0 then (i, 0, s1, false) else (m, len, s'', true)
        | _ => (i, 0, s1, false)
        end in
      let '(e, s3, has_exp) :=
        match s2 with
        | c :: s' =>
            if ((c =? 101) || (c =? 69))%N then
              let '(eneg, s'') :=
                match s' with
                | 45%N :: t => (true, t)
                | 43%N :: t => (false, t)
                | _ => (false, s')
                end in
              let '(v, len, t) := digits_from 0 0 s'' in
              if len =? 0 then (0, s2, false)
              else ((if eneg then - v else v), t, true)
            else (0, s2, false)
        | [] => (0, s2, false)
        end in
      if has_frac || has_exp then
        let r := (IZR mant * powerRZ 10 (e - flen))%R in
        Some (PFloat (Fin (if neg then (- r)%R else r)), s3)
      else Some (PInt (if neg then - i else i), s3)
  end.

Definition starts_with (p : string) (s : list N) : option (list N) :=
  let p := codes p in
  if forallb (fun x => x) (zip_with N.eqb p s) && (length p <=? length s)%nat
  then Some (drop (length p) s) else None.

(** One value at the head of [s], and after it the elements of an array
    and the members of an object. *)
Fixpoint scan_value (fuel : nat) (s : list N) {struct fuel}
    : option (pyval * list N) :=
  match fuel with
  | O => None
  | S fuel =>
      match s with
      | 34%N :: s' =>
          match scan_string (length s) [] s' with
          | Some (str, s1) => Some (PStr str, s1)
          | None => None
          end
      | 123%N :: s' =>
          match skip_ws s' with
          | 125%N :: s1 => Some (PDict ∅, s1)
          | s1 => scan_members fuel ∅ s1
          end
      | 91%N :: s' =>
          match skip_ws s' with
          | 93%N :: s1 => Some (PList [], s1)
          | s1 => scan_items fuel [] s1
          end
      | _ =>
          match starts_with "null" s, starts_with "true" s, starts_with "false" s with
          | Some s1, _, _ => Some (PNone, s1)
          | _, Some s1, _ => Some (PBool true, s1)
          | _, _, Some s1 => Some (PBool false, s1)
          | _, _, _ =>
              match scan_number s with
              | Some r => Some r
              | None =>
                  match starts_with "NaN" s, starts_with "Infinity" s,
                        starts_with "-Infinity" s with
                  | Some s1, _, _ => Some (PFloat NaN, s1)
                  | _, Some s1, _ => Some (PFloat (Inf false), s1)
                  | _, _, Some s1 => Some (PFloat (Inf true), s1)
                  | _, _, _ => None
                  end
              end
          end
      end
  end
with scan_items (fuel : nat) (acc : list pyval) (s : list N) {struct fuel}
    : option (pyval * list N) :=
  match fuel with
  | O => None
  | S fuel =>
      match scan_value fuel s with
      | Some (v, s1) =>
          match skip_ws s1 with
          | 93%N :: s2 => Some (PList (rev (v :: acc)), s2)
          | 44%N :: s2 => scan_items fuel (v :: acc) (skip_ws s2)
          | _ => None
          end
      | None => None
      end
  end
with scan_members (fuel : nat) (acc : gmap string pyval) (s : list N)
    {struct fuel} : option (pyval * list N) :=
  match fuel with
  | O => None
  | S fuel =>
      match s with
      | 34%N :: s' =>
          match scan_string (length s) [] s' with
          | Some (key, s1) =>
              match skip_ws s1 with
              | 58%N :: s2 =>
                  match scan_value fuel (skip_ws s2) with
                  | Some (v, s3) =>
                      match skip_ws s3 with
                      | 125%N :: s4 => Some (PDict (<[key := v]> acc), s4)
                      | 44%N :: s4 =>
                          scan_members fuel (<[key := v]> acc) (skip_ws s4)
                      | _ => None
                      end
                  | None => None
                  end
              | _ => None
              end
          | None => None
          end
      | _ => None
      end
  end.

(** [json.loads(s)] for a str [s]: [None] stands for JSONDecodeError. *)
Definition decode (s : string) : option pyval :=
  let input := codes s in
  match scan_value (2 * length input + 2) (skip_ws input) with
  | Some (v, rest) =>
      match skip_ws rest with
      | [] => Some v
      | _ => None
      end
  | None => None
  end.

End Json.

(** * Specification vocabulary

    Names for the dicts the handlers build, the states they go through and
    the ways they can end; the statements below are written with them. *)

Module Spec.

(** ** [initiate_session] *)

(** The fields written on an existing record (lines 86-91). *)
Definition pending_fields (data : LocationCheck) (code : string)
    : gmap string pyval :=
  list_to_map [("gps_lat", PFloat (Fin (lat data)));
               ("gps_long", PFloat (Fin (long data)));
               ("status", PStr "pending");
               ("verification_code", PStr code)].

(** The record inserted otherwise (lines 94-100). *)
Definition new_session (data : LocationCheck) (code : string)
    : gmap string pyval :=
  list_to_map [("case_id", PStr (case_id data));
               ("gps_lat", PFloat (Fin (lat data)));
               ("gps_long", PFloat (Fin (long data)));
               ("status", PStr "pending");
               ("verification_code", PStr code)].

Definition within_fence (data : LocationCheck) : Prop :=
  (calculate_distance (lat data) (long data) target_lat target_long
   <= max_distance)%R.

(** The two answers of [initiate_session]. *)
Definition too_far : pyval :=
  dict [("allowed", PBool false);
        ("reason", PStr "You are too far from the location!")].

Definition session_issued (data : LocationCheck) (code : string) : pyval :=
  dict [("allowed", PBool true);
        ("session_id", PStr (case_id data));
        ("verification_code", PStr code)].

(** Every way [initiate_session] can end. *)
Inductive init_outcome (env : init_env) (data : LocationCheck) (s : state)
  : result pyval -> state -> Prop :=
| init_rejected :
    ~ within_fence data ->
    init_outcome env data s (Return too_far) s
| init_select_failed msg :
    within_fence data -> init_select env = Some msg ->
    init_outcome env data s (Raise (HTTPException 500 "Database Error"))
      (log (DbSelect (case_id data)) s)
| init_update_failed msg :
    within_fence data -> init_select env = None -> init_write env = Some msg ->
    (1 <= count_case (case_id data) (inspections s))%nat ->
    init_outcome env data s (Raise (HTTPException 500 "Database Error"))
      (log (DbUpdate (pending_fields data (str_int (randint env))) (case_id data))
         (log (DbSelect (case_id data)) s))
| init_insert_failed msg :
    within_fence data -> init_select env = None -> init_write env = Some msg ->
    count_case (case_id data) (inspections s) = 0%nat ->
    init_outcome env data s (Raise (HTTPException 500 "Database Error"))
      (log (DbInsert (new_session data (str_int (randint env))))
         (log (DbSelect (case_id data)) s))
| init_updated :
    within_fence data -> init_select env = None -> init_write env = None ->
    (1 <= count_case (case_id data) (inspections s))%nat ->
    init_outcome env data s
      (Return (session_issued data (str_int (randint env))))
      (set_inspections
         (List.map (apply_patch (pending_fields data (str_int (randint env)))
                      (case_id data)))
         (log (DbUpdate (pending_fields data (str_int (randint env))) (case_id data))
            (log (DbSelect (case_id data)) s)))
| init_inserted :
    within_fence data -> init_select env = None -> init_write env = None ->
    count_case (case_id data) (inspections s) = 0%nat ->
    init_outcome env data s
      (Return (session_issued data (str_int (randint env))))
      (set_inspections
         (fun t => (t ++ [new_session data (str_int (randint env))])%list)
         (log (DbInsert (new_session data (str_int (randint env))))
            (log (DbSelect (case_id data)) s))).



(** A 4-digit numeric code between 1000 and 9999. *)
Definition four_digit_code (code : string) : Prop :=
  String.length code = 4%nat /\ all_digits code = true /\
  exists n, int_str code = Some n /\ 1000 <= n <= 9999.

(** The check run on every draw of [random.randint(1000, 9999)]. *)
Definition code_ok (n : Z) : bool :=
  (String.length (str_int n) =? 4)%nat && all_digits (str_int n) &&
  match int_str (str_int n) with
  | Some m => m =? n
  | None => false
  end.


(** ** [upload_video] *)

Definition video_path (env : upload_env) (sid name : string) : string :=
  sid ++ "_" ++ uuid4 env ++ "." ++ split_last "." name.

Definition processing_fields (url : string) : gmap string pyval :=
  list_to_map [("video_url", PStr url); ("status", PStr "processing")].

Definition expected_code_of (first : gmap string pyval) : pyval :=
  match first !! "verification_code" with
  | Some v => v
  | None => PStr "0000"
  end.

Definition verdict_fields (ai_data : pyval) : gmap string pyval :=
  list_to_map [("status", PStr "completed"); ("ai_result", ai_data)].

Definition report_name (sid : string) : string := "report_" ++ sid ++ ".pdf".

Definition success_response (url : string) (ai_data ru : pyval) : pyval :=
  dict [("status", PStr "success");
        ("video_url", PStr url);
        ("ai_verdict", ai_data);
        ("report_url", ru)].

Definition no_fault (f : fault) : bool :=
  match f with None => true | Some _ => false end.

(** The gateway was called. *)
Definition is_analysis (ev : event) : bool :=
  match ev with Analyze _ _ => true | _ => false end.

(** An update that sets [status] to [completed]. *)
Definition sets_completed (ev : event) : bool :=
  match ev with
  | DbUpdate p _ =>
      match p !! "status" with
      | Some (PStr st) => String.eqb st "completed"
      | _ => false
      end
  | _ => false
  end.

Section Upload.

Variable json_decode : string -> option pyval.
Variable get_public_url : string -> string -> string.

Definition video_link (env : upload_env) (sid name : string) : string :=
  get_public_url "Videos" (video_path env sid name).

(** The verdict kept for a gateway return value (lines 156-159). *)
Definition verdict_of (payload : pyval) : pyval :=
  match json_loads json_decode payload with
  | Return v => v
  | Raise _ => dict [("raw", payload)]
  end.

Definition report_link (sid : string) : string :=
  get_public_url "Reports" (report_name sid).

Definition report_fields (sid : string) : gmap string pyval :=
  list_to_map [("report_url", PStr (report_link sid))].

(** Whether [generate_pdf] returns; the state it runs in plays no part. *)
Definition pdf_ok (env : upload_env) (sid : string) (ai_data : pyval) : bool :=
  is_return (fst (generate_pdf json_decode env sid ai_data (mkState [] [] PNone))).

(** The report was generated and uploaded: line 184 is reached. *)
Definition link_reached (env : upload_env) (sid : string) (d : pyval) : bool :=
  pdf_ok env sid d && no_fault (pdf_open env) && no_fault (reports_upload env).

(** And its URL was saved on the session (line 187). *)
Definition link_saved (env : upload_env) (sid : string) (d : pyval) : bool :=
  link_reached env sid d && no_fault (db_report env).

(** The calls the report step can make. *)
Definition report_event (sid : string) (ev : event) : Prop :=
  match ev with
  | PdfOutput _ | FileOpen _ | FileRemove _ => True
  | StorageUpload bucket _ => bucket = "Reports"
  | DbUpdate p cid => p = report_fields sid /\ cid = sid
  | _ => False
  end.

(** The states [upload_video] goes through. *)
Definition stored (env : upload_env) (sid name : string) (s : state) : state :=
  log (StorageUpload "Videos" (video_path env sid name)) s.

Definition marked (env : upload_env) (sid name : string) (s : state) : state :=
  set_inspections
    (List.map (apply_patch (processing_fields (video_link env sid name)) sid))
    (log (DbUpdate (processing_fields (video_link env sid name)) sid)
       (stored env sid name s)).

Definition fetched (env : upload_env) (sid name : string) (s : state) : state :=
  log (DbSelect sid) (marked env sid name s).

Definition payload_of (env : upload_env) (sid name : string)
    (first : gmap string pyval) : pyval :=
  gateway_value (gateway env (video_link env sid name) (expected_code_of first)).

Definition analysed (env : upload_env) (sid name : string)
    (first : gmap string pyval) (s : state) : state :=
  log (Analyze (video_link env sid name) (expected_code_of first))
    (fetched env sid name s).

Definition judged (env : upload_env) (sid name : string)
    (first : gmap string pyval) (s : state) : state :=
  set_inspections
    (List.map (apply_patch
                 (verdict_fields (verdict_of (payload_of env sid name first))) sid))
    (log (DbUpdate
            (verdict_fields (verdict_of (payload_of env sid name first))) sid)
       (analysed env sid name first s)).

(** Every way [upload_video] can end. *)
Inductive upload_outcome (env : upload_env) (sid : string) (file : UploadFile)
    (s : state) : result pyval -> state -> Prop :=
| up_no_filename :
    filename file = None ->
    upload_outcome env sid file s
      (Raise (HTTPException 500 "'NoneType' object has no attribute 'split'")) s
| up_storage_failed name msg :
    filename file = Some name -> videos_upload env = Some msg ->
    upload_outcome env sid file s (Raise (HTTPException 500 msg))
      (stored env sid name s)
| up_processing_failed name msg :
    filename file = Some name -> videos_upload env = None ->
    db_processing env = Some msg ->
    upload_outcome env sid file s (Raise (HTTPException 500 msg))
      (log (DbUpdate (processing_fields (video_link env sid name)) sid)
         (stored env sid name s))
| up_fetch_failed name msg :
    filename file = Some name -> videos_upload env = None ->
    db_processing env = None -> db_fetch env = Some msg ->
    upload_outcome env sid file s (Raise (HTTPException 500 msg))
      (fetched env sid name s)
| up_not_found name :
    filename file = Some name -> videos_upload env = None ->
    db_processing env = None -> db_fetch env = None ->
    List.filter (row_matches sid) (inspections (marked env sid name s)) = [] ->
    upload_outcome env sid file s
      (Raise (HTTPException 500 "404: Session not found"))
      (fetched env sid name s)
| up_verdict_failed name first rest msg :
    filename file = Some name -> videos_upload env = None ->
    db_processing env = None -> db_fetch env = None ->
    List.filter (row_matches sid) (inspections (marked env sid name s))
      = first :: rest ->
    db_verdict env = Some msg ->
    upload_outcome env sid file s (Raise (HTTPException 500 msg))
      (log (DbUpdate
              (verdict_fields (verdict_of (payload_of env sid name first))) sid)
         (analysed env sid name first s))
| up_done name first rest s' :
    filename file = Some name -> videos_upload env = None ->
    db_processing env = None -> db_fetch env = None ->
    List.filter (row_matches sid) (inspections (marked env sid name s))
      = first :: rest ->
    db_verdict env = None ->
    report_step json_decode get_public_url env sid
      (verdict_of (payload_of env sid name first))
      (judged env sid name first s) = (Return tt, s') ->
    upload_outcome env sid file s
      (Return (success_response (video_link env sid name)
                 (verdict_of (payload_of env sid name first)) (report_url s')))
      s'.

End Upload.

End Spec.
Export Spec.

(** ** Sample requests and environments *)

Module Sample.

Definition demo_url (bucket path : string) : string :=
  "https://demo.supabase.co/storage/v1/object/public/" ++ bucket ++ "/" ++ path.

(** A request from the target itself, and one from the other side of the
    globe. *)
Definition at_target : LocationCheck :=
  mkLocationCheck target_lat target_long "case-7".


(** The database answers; [random.randint] draws [n]. *)
Definition db_up (n : Z) : init_env := mkInitEnv n None None.

Definition empty_store : state := mkState [] [] PNone.

Definition clip : UploadFile := mkUploadFile (Some "clip.mp4") "video/mp4" "".

(** No external call fails; the gateway ends with [answer]. *)
Definition quiet (answer : gateway_outcome) : upload_env :=
  mkUploadEnv "u1" None None None (fun _ _ => answer) None None None None None None.


(** A table with one pending session, holding [code] as its code. *)
Definition session_row (code : pyval) : gmap string pyval :=
  list_to_map [("case_id", PStr "case-7");
               ("status", PStr "pending");
               ("verification_code", code)].

Definition one_session (code : pyval) : state :=
  mkState [session_row code] [] PNone.

(** A session whose record has no [verification_code] at all. *)
Definition uncoded_session : state :=
  mkState [list_to_map [("case_id", PStr "case-7"); ("status", PStr "pending")]]
    [] PNone.

End Sample.
Export Sample.

(** * More vocabulary and samples *)

Module Spec2.

(** [s] has the character [c]. *)
Fixpoint has_char (c : ascii) (s : string) : bool :=
  match s with
  | EmptyString => false
  | String x s' => Ascii.eqb x c || has_char c s'
  end.

(** The entry of [d] at [key] is a dict, or is missing. *)
Definition dict_or_absent (d : gmap string pyval) (key : string) : bool :=
  match d !! key with
  | Some (PDict _) | None => true
  | Some _ => false
  end.

(** What [generate_pdf] can read: a dict whose two sections, when present,
    are dicts. *)
Definition renderable (v : pyval) : bool :=
  match v with
  | PDict d =>
      dict_or_absent d "liveness_check" && dict_or_absent d "stock_assessment"
  | _ => false
  end.

(** The verdict [generate_pdf] works on (report_generator.py, lines 31-35):
    a str is decoded, and replaced by the empty dict when it is not JSON. *)
Definition as_verdict (json_decode : string -> option pyval) (ai_data : pyval)
    : pyval :=
  match ai_data with
  | PStr t =>
      match json_decode t with
      | Some v => v
      | None => dict []
      end
  | _ => ai_data
  end.

(** The request gets as far as the gateway: the file has a name, storage
    and the first two database calls answer, and the session has a
    record. *)
Definition reaches_gateway (env : upload_env) (sid : string) (file : UploadFile)
    (s : state) : bool :=
  match filename file with
  | Some _ =>
      no_fault (videos_upload env) && no_fault (db_processing env) &&
      no_fault (db_fetch env) &&
      negb (Nat.eqb (count_case sid (inspections s)) 0)
  | None => false
  end.

End Spec2.
Export Spec2.

Module Sample2.

(** A session whose verdict and report are in. *)
Definition finished_row : gmap string pyval :=
  list_to_map [("case_id", PStr "case-7");
               ("status", PStr "completed");
               ("verification_code", PStr "1111");
               ("video_url", PStr "https://demo.supabase.co/v/old.mp4");
               ("ai_result", dict [("verification_status", PStr "APPROVED")]);
               ("report_url", PStr "https://demo.supabase.co/r/old.pdf")].

Definition finished_session : state := mkState [finished_row] [] PNone.


(** The update that saves the verdict fails. *)
Definition verdict_unsaved (answer : gateway_outcome) : upload_env :=
  mkUploadEnv "u1" None None None (fun _ _ => answer) (Some "connection reset")
    None None None None None.

End Sample2.
Export Sample2.

(** * The analysis gateway (ai_engine.py) *)

Module AiEngine.

(** ** The two str methods used on the answer *)

Fixpoint is_prefix (p s : list N) : bool :=
  match p, s with
  | [], _ => true
  | _ :: _, [] => false
  | x :: p', y :: s' => N.eqb x y && is_prefix p' s'
  end.

(** [s.replace(old, new)], read from the left, the occurrences found not
    overlapping; [skip] counts the characters of an occurrence still to
    pass. *)
Fixpoint replace_from (old new : list N) (skip : nat) (s : list N) : list N :=
  match s with
  | [] => []
  | c :: s' =>
      match skip with
      | S k => replace_from old new k s'
      | O =>
          if is_prefix old s
          then (new ++ replace_from old new (length old - 1) s')%list
          else c :: replace_from old new 0 s'
      end
  end.

Definition str_replace (old new s : list N) : list N :=
  match old with
  | [] => (new ++ flat_map (fun c => c :: new) s)%list
  | _ :: _ => replace_from old new 0 s
  end.

(** [c.isspace()] *)
Definition is_space (c : N) : bool :=
  ((9 <=? c) && (c <=? 13) || (28 <=? c) && (c <=? 32) ||
   (c =? 133) || (c =? 160) || (c =? 5760) ||
   (8192 <=? c) && (c <=? 8202) || (c =? 8232) || (c =? 8233) ||
   (c =? 8239) || (c =? 8287) || (c =? 12288))%N.

Fixpoint lstrip (s : list N) : list N :=
  match s with
  | c :: s' => if is_space c then lstrip s' else s
  | [] => []
  end.

Definition rstrip (s : list N) : list N := rev (lstrip (rev s)).

(** [s.strip()] *)
Definition strip (s : list N) : list N := rstrip (lstrip s).

(** The two fences, as code points. *)
Definition fence : list N := Json.codes "```".
Definition fence_json : list N := Json.codes "```json".

(** Line 125: the answer without its Markdown fences and outer blanks. *)
Definition clean_text (response_text : list N) : list N :=
  strip (str_replace fence [] (str_replace fence_json [] response_text)).

(** The str of the model, from its code points. *)
Definition encode (s : list N) : string :=
  Json.text (flat_map Json.utf8 s).

(** ** The environment of one call *)

(** How the download of lines 25-29 ends: done, failed before the
    temporary file exists (the request, its status or [open]), or failed
    while the file is written. *)
Inductive download_outcome :=
| Downloaded
| Refused (msg : string)
| Broken (msg : string).

(** What the file store answers to [files.upload] and [files.get]: the
    file with its state, or an error. *)
Inductive remote :=
| Remote (file_state : string)
| RemoteError (msg : string).

(** How [generate_content] ends: an answer whose [text] may be [None], or
    an error. *)
Inductive generation :=
| Generated (text : option (list N))
| GenerationError (msg : string).

Record ai_env := mkAiEnv {
  clock : Z;
  download : download_outcome;
  files_upload : remote;
  files_get : list remote;
  generate : pyval -> generation;
  os_remove : fault
}.

(** The local files, and the seconds slept. *)
Record ai_state := mkAiState {
  local_files : gset string;
  slept : Z
}.

Definition create_file (name : string) (s : ai_state) : ai_state :=
  mkAiState ({[name]} ∪ local_files s) (slept s).

Definition delete_file (name : string) (s : ai_state) : ai_state :=
  mkAiState (local_files s ∖ {[name]}) (slept s).

Definition sleep (seconds : Z) (s : ai_state) : ai_state :=
  mkAiState (local_files s) (slept s + seconds).

(** Line 21: the name of the temporary file, from the clock in seconds. *)
Definition temp_name (env : ai_env) : string :=
  "temp_" ++ str_int (clock env) ++ ".mp4".

(** Lines 128-129 and 139-140: [if os.path.exists(name): os.remove(name)]. *)
Definition remove_if_exists (env : ai_env) (name : string) : M ai_state unit :=
  fun s =>
    if decide (name ∈ local_files s) then
      match os_remove env with
      | Some msg => (Raise (PyExc "OSError" msg), s)
      | None => (Return tt, delete_file name s)
      end
    else (Return tt, s).

(** Lines 39-42: the wait while the file is [PROCESSING], two seconds
    before each question. [None]: the answers of the environment are used
    up and the file is still [PROCESSING]. *)
Fixpoint wait_while_processing (file_state : string) (answers : list remote)
    (s : ai_state) : option (result string * ai_state) :=
  if String.eqb file_state "PROCESSING" then
    match answers with
    | [] => None
    | Remote st :: rest => wait_while_processing st rest (sleep 2 s)
    | RemoteError msg :: _ => Some (Raise (PyExc "APIError" msg), sleep 2 s)
    end
  else Some (Return file_state, s).

(** Lines 104-135: the generation, in a [try] of its own. *)
Definition generation_step (env : ai_env) (temp_filename : string)
    (expected_code : pyval) : M ai_state pyval :=
  try_except
    (fun s =>
       match generate env expected_code with
       | GenerationError msg => (Raise (PyExc "APIError" msg), s)
       | Generated None =>
           (Raise (PyExc "TypeError" "'NoneType' object is not subscriptable"), s)
       | Generated (Some text) =>
           match remove_if_exists env temp_filename s with
           | (Return _, s') => (Return (PStr (encode (clean_text text))), s')
           | (Raise e, s') => (Raise e, s')
           end
       end)
    (fun e => ret (dict [("error", PStr ("AI Generation Failed: " ++ str_exn e))])).

(** Lines 16-142. [None]: the call never returns. *)
Definition analyze_video_run (env : ai_env) (video_url : string)
    (expected_code : pyval) (s : ai_state)
    : option (result pyval * ai_state) :=
  let temp_filename := temp_name env in
  let handler (e : exn) : M ai_state pyval :=
    bind (remove_if_exists env temp_filename)
      (fun _ => ret (dict [("error", PStr (str_exn e))])) in
  match download env with
  | Refused msg => Some (handler (PyExc "RequestException" msg) s)
  | Broken msg =>
      Some (handler (PyExc "RequestException" msg) (create_file temp_filename s))
  | Downloaded =>
      let s1 := create_file temp_filename s in
      match files_upload env with
      | RemoteError msg => Some (handler (PyExc "APIError" msg) s1)
      | Remote st =>
          match wait_while_processing st (files_get env) s1 with
          | None => None
          | Some (Raise e, s2) => Some (handler e s2)
          | Some (Return final, s2) =>
              if String.eqb final "FAILED" then
                Some (handler
                        (PyExc "ValueError" "Gemini failed to process video file.")
                        s2)
              else
                Some (try_except (generation_step env temp_filename expected_code)
                        handler s2)
          end
      end
  end.

End AiEngine.
Export AiEngine.

Module AiSpec.

(** [sub in s] *)
Fixpoint contains (sub s : list N) : bool :=
  is_prefix sub s ||
  match s with
  | [] => false
  | _ :: s' => contains sub s'
  end.

(** The number of backticks (code 96) a text starts with. *)
Fixpoint backticks (s : list N) : nat :=
  match s with
  | c :: s' => if N.eqb c 96 then S (backticks s') else O
  | [] => O
  end.

(** No backtick anywhere in the text. *)
Definition no_backtick (s : list N) : bool :=
  forallb (fun c => negb (N.eqb c 96)) s.

End AiSpec.
Export AiSpec.

Module AiSample.

(** Everything answers; the file is ready after two questions. *)
Definition smooth (text : list N) : ai_env :=
  mkAiEnv 1700000000 Downloaded (Remote "PROCESSING")
    [Remote "PROCESSING"; Remote "ACTIVE"]
    (fun _ => Generated (Some text)) None.

(** The same, but the generation fails. *)
Definition mute : ai_env :=
  mkAiEnv 1700000000 Downloaded (Remote "ACTIVE") []
    (fun _ => GenerationError "quota exceeded") None.

(** The file store gives the file up after one question. *)
Definition spoiled : ai_env :=
  mkAiEnv 1700000000 Downloaded (Remote "PROCESSING") [Remote "FAILED"]
    (fun _ => Generated (Some [])) None.

(** Everything answers, but the temporary file cannot be removed. *)
Definition locked (text : list N) : ai_env :=
  mkAiEnv 1700000000 Downloaded (Remote "ACTIVE") []
    (fun _ => Generated (Some text)) (Some "permission denied").

(** The download breaks off, and the temporary file cannot be removed. *)
Definition cut_off : ai_env :=
  mkAiEnv 1700000000 (Broken "connection reset") (Remote "ACTIVE") []
    (fun _ => Generated (Some [])) (Some "permission denied").

Definition no_files : ai_state := mkAiState ∅ 0.

(** One file of another call is on the disk. *)
Definition one_file : ai_state := mkAiState {["temp_1699999999.mp4"]} 0.

(** A fenced answer: the fence, a line feed, an empty JSON object, a line
    feed, the closing fence. *)
Definition fenced_answer : list N :=
  (fence_json ++ [10%N; 123%N; 125%N; 10%N] ++ fence)%list.

End AiSample.
Export AiSample.

(** * Facts *)

(** Unfolds the monad and the external calls, and nothing else. *)
Ltac run :=
  cbv beta iota zeta delta
    [bind try_except ret raise lift modify gets attempt db_update db_select
     db_insert analyze_video].

(** ** The geofence *)

Module GeoFacts.
Local Open Scope R_scope.

Lemma radians_sub x y : radians (x - y) = radians x - radians y.
Proof. unfold radians. lra. Qed.

Lemma hav_cos x : hav x = (1 - cos x) / 2.
Proof.
  unfold hav. replace (cos x) with (cos (2 * (x / 2))) by (f_equal; lra).
  rewrite cos_2a_sin. simpl. lra.
Qed.

Lemma sin_cos_sq x : sin x * sin x + cos x * cos x = 1.
Proof. generalize (sin2_cos2 x). unfold Rsqr. lra. Qed.

(** The argument of the square roots stays between 0 and 1. *)
Lemma haversine_arg_bounds p q d :
  0 <= hav (q - p) + cos p * cos q * hav d <= 1.
Proof.
  rewrite !hav_cos, cos_minus.
  pose proof (sin_cos_sq p) as Hp.
  pose proof (sin_cos_sq q) as Hq.
  pose proof (COS_bound d) as [Hd1 Hd2].
  set (sp := sin p) in *. set (cp := cos p) in *.
  set (sq := sin q) in *. set (cq := cos q) in *.
  set (t := cos d) in *.
  assert (Ht : 0 <= 1 - t * t) by nra.
  assert (Hc : 0 <= (1 - t * t) * (cq * cq)).
  { apply Rmult_le_pos; [exact Ht | apply Rle_0_sqr]. }
  pose proof (Rle_0_sqr (sp - sq)) as H1. pose proof (Rle_0_sqr (cp - t * cq)) as H2.
  pose proof (Rle_0_sqr (sp + sq)) as H3. pose proof (Rle_0_sqr (cp + t * cq)) as H4.
  unfold Rsqr in *.
  split; lra.
Qed.

Lemma atan2_sqrt_asin a :
  0 <= a <= 1 -> atan2 (sqrt a) (sqrt (1 - a)) = asin (sqrt a).
Proof.
  intros [H0 H1]. unfold atan2, asin.
  pose proof (sqrt_pos a) as Hs.
  destruct (Rle_dec (sqrt a) (-1)) as [Hc|_]; [lra|].
  destruct (Req_dec a 1) as [->|Hne].
  - replace (1 - 1) with 0 by lra. rewrite sqrt_0, sqrt_1.
    destruct (Rlt_dec 0 0) as [Hc|_]; [lra|].
    destruct (Rlt_dec 0 0) as [Hc|_]; [lra|].
    destruct (Rlt_dec 0 1) as [_|Hc]; [|lra].
    destruct (Rle_dec 1 1) as [_|Hc]; [reflexivity|lra].
  - assert (Hlt : 0 < sqrt (1 - a)) by (apply sqrt_lt_R0; lra).
    destruct (Rlt_dec 0 (sqrt (1 - a))) as [_|Hc]; [|lra].
    assert (sqrt a < 1).
    { rewrite <- sqrt_1. apply sqrt_lt_1_alt. lra. }
    destruct (Rle_dec 1 (sqrt a)) as [Hc|_]; [lra|].
    rewrite Rsqr_sqrt by lra. reflexivity.
Qed.

Lemma calculate_distance_haversine lat1 lon1 lat2 lon2 :
  calculate_distance lat1 lon1 lat2 lon2 =
  haversine_distance earth_radius lat1 lon1 lat2 lon2.
Proof.
  unfold calculate_distance, haversine_distance, earth_radius.
  rewrite !radians_sub. fold (hav (radians lat2 - radians lat1)).
  fold (hav (radians lon2 - radians lon1)).
  rewrite atan2_sqrt_asin by apply haversine_arg_bounds.
  lra.
Qed.

Lemma calculate_distance_same lat lon : calculate_distance lat lon lat lon = 0.
Proof.
  unfold calculate_distance.
  replace (radians (lat - lat)) with 0 by (unfold radians; lra).
  replace (radians (lon - lon)) with 0 by (unfold radians; lra).
  replace (0 / 2) with 0 by lra. rewrite sin_0.
  replace (0 ^ 2 + cos (radians lat) * cos (radians lat) * 0 ^ 2) with 0
    by (simpl; lra).
  replace (1 - 0) with 1 by lra. rewrite sqrt_0, sqrt_1.
  unfold atan2. destruct (Rlt_dec 0 1) as [_|Hc]; [|lra].
  replace (0 / 1) with 0 by lra. rewrite atan_0. lra.
Qed.



End GeoFacts.
Export GeoFacts.

(** ** The table *)

Module StoreFacts.

Lemma row_matches_patch (patch : gmap string pyval) cid c r :
  patch !! "case_id" = None ->
  row_matches c (apply_patch patch cid r) = row_matches c r.
Proof.
  intros H. unfold apply_patch. destruct (row_matches cid r); [|reflexivity].
  unfold row_matches. rewrite lookup_union_r by exact H. reflexivity.
Qed.

Lemma filter_patch (patch : gmap string pyval) cid c t :
  patch !! "case_id" = None ->
  List.filter (row_matches c) (List.map (apply_patch patch cid) t) =
  List.map (apply_patch patch cid) (List.filter (row_matches c) t).
Proof.
  intros H. induction t as [|r t IH]; [reflexivity|].
  cbn [List.map List.filter]. rewrite row_matches_patch by exact H.
  destruct (row_matches c r); cbn [List.map]; rewrite IH; reflexivity.
Qed.

Lemma count_case_patch (patch : gmap string pyval) cid c t :
  patch !! "case_id" = None ->
  count_case c (List.map (apply_patch patch cid) t) = count_case c t.
Proof.
  intros H. unfold count_case. rewrite filter_patch by exact H.
  apply length_map.
Qed.

Lemma count_case_app c t1 t2 :
  count_case c (t1 ++ t2) = (count_case c t1 + count_case c t2)%nat.
Proof. unfold count_case. rewrite List.filter_app, length_app. reflexivity. Qed.

Lemma row_matches_new (fields : gmap string pyval) cid c :
  fields !! "case_id" = Some (PStr cid) ->
  row_matches c fields = String.eqb cid c.
Proof. intros H. unfold row_matches. rewrite H. reflexivity. Qed.

Lemma patched_lookup (patch : gmap string pyval) cid r k v :
  patch !! k = Some v -> row_matches cid r = true ->
  apply_patch patch cid r !! k = Some v.
Proof.
  intros Hk Hm. unfold apply_patch. rewrite Hm.
  apply lookup_union_Some_l. exact Hk.
Qed.

Lemma patched_lookup_other (patch : gmap string pyval) cid r k :
  patch !! k = None -> apply_patch patch cid r !! k = r !! k.
Proof.
  intros Hk. unfold apply_patch. destruct (row_matches cid r); [|reflexivity].
  apply lookup_union_r. exact Hk.
Qed.

End StoreFacts.
Export StoreFacts.

(** ** How [initiate_session] ends *)

Module InitFacts.

Lemma initiate_session_outcome env data s :
  init_outcome env data s (fst (initiate_session env data s))
    (snd (initiate_session env data s)).
Proof.
  unfold initiate_session.
  destruct (Rgt_dec _ _) as [Hfar|Hnear].
  { apply init_rejected. unfold within_fence. lra. }
  assert (Hin : within_fence data) by (unfold within_fence; lra).
  run. destruct (init_select env) as [msg|] eqn:Hsel; cbn [fst snd].
  { eapply init_select_failed; eauto. }
  cbn [inspections log].
  destruct (List.filter _ _) as [|r0 rest] eqn:Hf;
    destruct (init_write env) as [msg|] eqn:Hw; cbn [fst snd].
  - eapply init_insert_failed; eauto. unfold count_case. rewrite Hf. reflexivity.
  - eapply init_inserted; eauto. unfold count_case. rewrite Hf. reflexivity.
  - eapply init_update_failed; eauto. unfold count_case. rewrite Hf. cbn. lia.
  - eapply init_updated; eauto. unfold count_case. rewrite Hf. cbn. lia.
Qed.

End InitFacts.
Export InitFacts.

(** ** How [upload_video] ends *)

Module UploadFacts.

Section Upload.

Variable json_decode : string -> option pyval.
Variable get_public_url : string -> string -> string.

Lemma generate_pdf_cases env sid ai_data st :
  (pdf_ok json_decode env sid ai_data = true /\
   generate_pdf json_decode env sid ai_data st =
     (Return (report_name sid), log (PdfOutput (report_name sid)) st))
  \/
  (pdf_ok json_decode env sid ai_data = false /\
   exists e,
     generate_pdf json_decode env sid ai_data st = (Raise e, st) \/
     generate_pdf json_decode env sid ai_data st =
       (Raise e, log (PdfOutput (report_name sid)) st)).
Proof.
  unfold pdf_ok, generate_pdf.
  set (d := match ai_data with PStr _ => _ | _ => ai_data end).
  clearbody d. run. unfold report_name.
  destruct d as [| | | | | |dd]; cbn [py_get fst is_return];
    try (right; split; [reflexivity | eexists; left; reflexivity]).
  destruct (match dd !! "liveness_check" with Some x => x | None => dict [] end)
    as [| | | | | |lv]; cbn [py_get fst is_return];
    try (right; split; [reflexivity | eexists; left; reflexivity]).
  destruct (match dd !! "stock_assessment" with Some x => x | None => dict [] end)
    as [| | | | | |sv]; cbn [py_get fst is_return];
    try (right; split; [reflexivity | eexists; left; reflexivity]).
  destruct (pdf_output env) as [msg|]; cbn [fst is_return].
  - right. split; [reflexivity | eexists; right; reflexivity].
  - left. split; reflexivity.
Qed.

Lemma report_step_spec env sid d s :
  exists s' evs,
    report_step json_decode get_public_url env sid d s = (Return tt, s') /\
    report_url s' =
      (if link_reached json_decode env sid d
       then PStr (report_link get_public_url sid) else PNone) /\
    inspections s' =
      (if link_saved json_decode env sid d
       then List.map (apply_patch (report_fields get_public_url sid) sid)
              (inspections s)
       else inspections s) /\
    trace s' = (evs ++ trace s)%list /\
    Forall (report_event get_public_url sid) evs.
Proof.
  unfold report_step, link_saved, link_reached. run.
  destruct (generate_pdf_cases env sid d (assign_report_url PNone s))
    as [[Hok Heq] | [Hok [e [Heq | Heq]]]]; rewrite Heq, Hok; clear Heq Hok.
  - fold (report_name sid). fold (report_link get_public_url sid).
    fold (report_fields get_public_url sid).
    destruct (pdf_open env); [|destruct (reports_upload env);
      [|destruct (db_report env); [|destruct (pdf_remove env)]]];
      cbn [no_fault andb].
    + eexists _, [_; _]. repeat split; cbn; repeat constructor.
    + eexists _, [_; _; _]. repeat split; cbn; repeat constructor.
    + eexists _, [_; _; _; _]. repeat split; cbn; repeat constructor.
    + eexists _, [_; _; _; _; _]. repeat split; cbn; repeat constructor.
    + eexists _, [_; _; _; _; _]. repeat split; cbn; repeat constructor.
  - eexists _, []. repeat split; cbn; repeat constructor.
  - eexists _, [_]. repeat split; cbn; repeat constructor.
Qed.

Lemma upload_video_outcome env sid file s :
  upload_outcome json_decode get_public_url env sid file s
    (fst (upload_video json_decode get_public_url env sid file s))
    (snd (upload_video json_decode get_public_url env sid file s)).
Proof.
  unfold upload_video. run.
  destruct (filename file) as [name|] eqn:Hname; cbn [fst snd].
  2:{ apply up_no_filename. exact Hname. }
  fold (video_path env sid name). fold (video_link get_public_url env sid name).
  fold (processing_fields (video_link get_public_url env sid name)).
  destruct (videos_upload env) as [msg|] eqn:Hv; cbn [fst snd].
  { eapply up_storage_failed; eauto. }
  destruct (db_processing env) as [msg|] eqn:Hp; cbn [fst snd].
  { eapply up_processing_failed; eauto. }
  destruct (db_fetch env) as [msg|] eqn:Hf; cbn [fst snd].
  { eapply up_fetch_failed; eauto. }
  fold (stored env sid name s). fold (marked get_public_url env sid name s).
  fold (fetched get_public_url env sid name s).
  replace (inspections (fetched get_public_url env sid name s))
    with (inspections (marked get_public_url env sid name s)) by reflexivity.
  destruct (List.filter (row_matches sid)
              (inspections (marked get_public_url env sid name s)))
    as [|first rest] eqn:Hrows; cbn [fst snd].
  { eapply up_not_found; eauto. }
  fold (expected_code_of first).
  fold (payload_of get_public_url env sid name first).
  fold (analysed get_public_url env sid name first s).
  assert (Hverdict :
    (match json_loads json_decode (payload_of get_public_url env sid name first) with
     | Return a => (Return a, analysed get_public_url env sid name first s)
     | Raise e =>
         (Return (dict [("raw", payload_of get_public_url env sid name first)]),
          analysed get_public_url env sid name first s)
     end) = (Return (verdict_of json_decode
                       (payload_of get_public_url env sid name first)),
             analysed get_public_url env sid name first s)).
  { unfold verdict_of. destruct (json_loads _ _); reflexivity. }
  rewrite Hverdict. clear Hverdict.
  fold (verdict_fields
          (verdict_of json_decode (payload_of get_public_url env sid name first))).
  destruct (db_verdict env) as [msg|] eqn:Hd; cbn [fst snd].
  { eapply up_verdict_failed; eauto. }
  fold (judged json_decode get_public_url env sid name first s).
  destruct (report_step_spec env sid
              (verdict_of json_decode (payload_of get_public_url env sid name first))
              (judged json_decode get_public_url env sid name first s))
    as (s' & evs & Hrep & _).
  rewrite Hrep. cbn [fst snd].
  eapply up_done; eauto.
Qed.

End Upload.

End UploadFacts.
Export UploadFacts.

(** ** The issued code *)

Module CodeFacts.

Lemma codes_checked :
  forallb (fun k => code_ok (1000 + Z.of_nat k)) (List.seq 0 (Z.to_nat 9000)) = true.
Proof. vm_compute. reflexivity. Qed.

Lemma randint_code n : 1000 <= n <= 9999 -> four_digit_code (str_int n).
Proof.
  intros Hn.
  assert (Hok : code_ok n = true).
  { pose proof codes_checked as H. rewrite forallb_forall in H.
    specialize (H (Z.to_nat (n - 1000))).
    replace (1000 + Z.of_nat (Z.to_nat (n - 1000))) with n in H by lia.
    apply H. apply in_seq. lia. }
  unfold code_ok in Hok.
  apply andb_prop in Hok as [Hok Hint]. apply andb_prop in Hok as [Hlen Hdig].
  unfold four_digit_code. split; [|split].
  - apply Nat.eqb_eq. exact Hlen.
  - exact Hdig.
  - destruct (int_str (str_int n)) as [m|]; [|discriminate].
    apply Z.eqb_eq in Hint. subst m. exists n. split; [reflexivity | exact Hn].
Qed.

End CodeFacts.
Export CodeFacts.

(** ** Records after [initiate_session] *)

Module InitTheorems.

Lemma initiate_session_ends env data s r s' :
  initiate_session env data s = (r, s') -> init_outcome env data s r s'.
Proof.
  intros H. pose proof (initiate_session_outcome env data s) as Ho.
  rewrite H in Ho. exact Ho.
Qed.

Lemma pending_fields_keep_case data code :
  pending_fields data code !! "case_id" = None.
Proof. reflexivity. Qed.

Lemma no_record_no_match cid t r :
  count_case cid t = 0%nat -> In r t -> row_matches cid r = false.
Proof.
  unfold count_case. intros Hc Hin.
  destruct (row_matches cid r) eqn:Hm; [|reflexivity].
  assert (Hf : In r (List.filter (row_matches cid) t)).
  { apply filter_In. split; assumption. }
  destruct (List.filter (row_matches cid) t); [destruct Hf | discriminate].
Qed.

Lemma count_new_session data code cid :
  count_case cid [new_session data code]
  = if String.eqb (case_id data) cid then 1%nat else 0%nat.
Proof.
  unfold count_case. cbn [List.filter].
  rewrite (row_matches_new _ (case_id data)) by reflexivity.
  destruct (String.eqb (case_id data) cid); reflexivity.
Qed.



(** After a call that issued a code, every record of the case holds the
    presented coordinates, the status [pending] and that code. *)
Lemma issued_fields env data s s' :
  init_outcome env data s
    (Return (session_issued data (str_int (randint env)))) s' ->
  within_fence data ->
  (1 <= count_case (case_id data) (inspections s'))%nat /\
  forall r, In r (inspections s') -> row_matches (case_id data) r = true ->
    r !! "status" = Some (PStr "pending") /\
    r !! "gps_lat" = Some (PFloat (Fin (lat data))) /\
    r !! "gps_long" = Some (PFloat (Fin (long data))) /\
    r !! "verification_code" = Some (PStr (str_int (randint env))).
Proof.
  intros Ho Hin.
  inversion Ho; subst; try contradiction; cbn [inspections log set_inspections].
  - split.
    { rewrite count_case_patch by apply pending_fields_keep_case. assumption. }
    intros r Hr Hm. apply in_map_iff in Hr as (r0 & <- & Hr0).
    rewrite row_matches_patch in Hm by apply pending_fields_keep_case.
    repeat split; apply patched_lookup; solve [reflexivity | exact Hm].
  - split.
    { rewrite count_case_app, count_new_session, String.eqb_refl. lia. }
    intros r Hr Hm. apply in_app_iff in Hr as [Hr | [<- | []]].
    + match goal with
      | Hz : count_case _ _ = 0%nat |- _ =>
          rewrite (no_record_no_match _ _ _ Hz Hr) in Hm
      end.
      discriminate.
    + repeat split; reflexivity.
Qed.

End InitTheorems.
Export InitTheorems.

(** * The claims on [initiate_session] and the geofence *)

Module InitClaims.

Lemma at_target_within : within_fence at_target.
Proof.
  unfold within_fence, at_target. cbn [lat long].
  rewrite calculate_distance_same. unfold max_distance. lra.
Qed.

(** A first request for a case, with the database up. *)
Lemma initiate_session_fresh env data s :
  within_fence data -> init_select env = None -> init_write env = None ->
  count_case (case_id data) (inspections s) = 0%nat ->
  initiate_session env data s =
    (Return (session_issued data (str_int (randint env))),
     set_inspections
       (fun t => (t ++ [new_session data (str_int (randint env))])%list)
       (log (DbInsert (new_session data (str_int (randint env))))
          (log (DbSelect (case_id data)) s))).
Proof.
  intros Hin Hs Hw Hc.
  pose proof (initiate_session_outcome env data s) as Ho.
  rewrite (surjective_pairing (initiate_session env data s)).
  inversion Ho; subst; solve [contradiction | congruence | lia].
Qed.





(** C7: within the radius, a call that succeeds returns a code of four
    digits whose value lies between 1000 and 9999, and every record of the
    case holds exactly that string as its [verification_code]. *)
Theorem issued_code_is_stored env data s v s' :
  within_fence data ->
  1000 <= randint env <= 9999 ->
  initiate_session env data s = (Return v, s') ->
  exists code,
    v = session_issued data code /\
    four_digit_code code /\
    (1 <= count_case (case_id data) (inspections s'))%nat /\
    forall r, In r (inspections s') -> row_matches (case_id data) r = true ->
      r !! "verification_code" = Some (PStr code).
Proof.
  intros Hin Hn Hrun. apply initiate_session_ends in Hrun.
  assert (Hv : v = session_issued data (str_int (randint env))).
  { inversion Hrun; subst; try contradiction; reflexivity. }
  subst v. exists (str_int (randint env)).
  destruct (issued_fields _ _ _ _ Hrun Hin) as [Hcount Hrows].
  repeat split.
  - apply randint_code. lia.
  - apply randint_code. lia.
  - apply randint_code. lia.
  - exact Hcount.
  - intros r Hr Hm. apply (Hrows r Hr Hm).
Qed.


Lemma first_request_runs n :
  initiate_session (db_up n) at_target empty_store =
    (Return (session_issued at_target (str_int n)),
     snd (initiate_session (db_up n) at_target empty_store)).
Proof.
  rewrite (initiate_session_fresh (db_up n) at_target empty_store);
    [reflexivity | exact at_target_within | reflexivity | reflexivity
    | reflexivity].
Qed.

Lemma issued_code_is_stored_witness :
  exists code,
    session_issued at_target (str_int 4582) = session_issued at_target code /\
    four_digit_code code /\
    (1 <= count_case "case-7"
            (inspections (snd (initiate_session (db_up 4582) at_target
                                 empty_store))))%nat /\
    forall r,
      In r (inspections (snd (initiate_session (db_up 4582) at_target
                                empty_store))) ->
      row_matches "case-7" r = true ->
      r !! "verification_code" = Some (PStr code).
Proof.
  apply (issued_code_is_stored (db_up 4582) at_target empty_store).
  - exact at_target_within.
  - cbn. lia.
  - apply first_request_runs.
Defined.




End InitClaims.
Export InitClaims.

(** ** Records and calls after [upload_video] *)

Module UploadTheorems.

Section Upload.

Variable json_decode : string -> option pyval.
Variable get_public_url : string -> string -> string.

Lemma upload_video_ends env sid file s r s' :
  upload_video json_decode get_public_url env sid file s = (r, s') ->
  upload_outcome json_decode get_public_url env sid file s r s'.
Proof.
  intros H.
  pose proof (upload_video_outcome json_decode get_public_url env sid file s) as Ho.
  rewrite H in Ho. exact Ho.
Qed.

(** What a patch without [case_id] writes on the records of a case, and
    what it keeps. *)
Lemma patched_rows (patch : gmap string pyval) cid t k v :
  patch !! "case_id" = None -> patch !! k = Some v ->
  forall r, In r (List.map (apply_patch patch cid) t) ->
    row_matches cid r = true -> r !! k = Some v.
Proof.
  intros Hc Hk r Hr Hm. apply in_map_iff in Hr as (r0 & <- & _).
  rewrite row_matches_patch in Hm by exact Hc.
  apply patched_lookup; assumption.
Qed.

Lemma patched_rows_keep (patch : gmap string pyval) cid t k v :
  patch !! "case_id" = None -> patch !! k = None ->
  (forall r, In r t -> row_matches cid r = true -> r !! k = Some v) ->
  forall r, In r (List.map (apply_patch patch cid) t) ->
    row_matches cid r = true -> r !! k = Some v.
Proof.
  intros Hc Hk Hall r Hr Hm. apply in_map_iff in Hr as (r0 & <- & Hr0).
  rewrite row_matches_patch in Hm by exact Hc.
  rewrite patched_lookup_other by exact Hk. apply Hall; assumption.
Qed.

(** The records of the session as [upload_video] finds them: those of the
    table before the call, marked as processing. *)
Lemma marked_rows env sid name s :
  List.filter (row_matches sid)
    (inspections (marked get_public_url env sid name s))
  = List.map
      (apply_patch (processing_fields (video_link get_public_url env sid name)) sid)
      (List.filter (row_matches sid) (inspections s)).
Proof. cbn [marked inspections set_inspections log stored].
  apply filter_patch. reflexivity.
Qed.

Lemma marked_first env sid name s first rest :
  List.filter (row_matches sid)
    (inspections (marked get_public_url env sid name s)) = first :: rest ->
  exists r0,
    In r0 (inspections s) /\ row_matches sid r0 = true /\
    hd_error (List.filter (row_matches sid) (inspections s)) = Some r0 /\
    expected_code_of first = expected_code_of r0.
Proof.
  rewrite marked_rows.
  destruct (List.filter (row_matches sid) (inspections s)) as [|r0 rest0] eqn:Hf;
    [discriminate|].
  cbn [List.map]. intros [= <- _].
  assert (Hin : In r0 (List.filter (row_matches sid) (inspections s)))
    by (rewrite Hf; left; reflexivity).
  apply filter_In in Hin as [Hin Hm].
  exists r0. repeat split; try assumption.
  unfold expected_code_of. rewrite patched_lookup_other by reflexivity.
  reflexivity.
Qed.

Lemma report_events_quiet sid evs :
  Forall (report_event get_public_url sid) evs ->
  existsb is_analysis evs = false /\ existsb sets_completed evs = false.
Proof.
  induction 1 as [|ev evs Hev _ [IH1 IH2]]; [split; reflexivity|].
  cbn [existsb]. rewrite IH1, IH2.
  destruct ev; cbn in Hev |- *; try contradiction; try (split; reflexivity).
  destruct Hev as [-> _]. split; reflexivity.
Qed.

(** The calls made by one [upload_video]: the update that sets [completed]
    is among them exactly when the gateway is. *)
Lemma upload_trace env sid file s r s' :
  upload_outcome json_decode get_public_url env sid file s r s' ->
  exists evs,
    trace s' = (evs ++ trace s)%list /\
    existsb sets_completed evs = existsb is_analysis evs /\
    (forall url code, In (Analyze url code) evs ->
       exists name first rest,
         filename file = Some name /\
         List.filter (row_matches sid)
           (inspections (marked get_public_url env sid name s)) = first :: rest /\
         url = video_link get_public_url env sid name /\
         code = expected_code_of first) /\
    (is_return r = true -> existsb is_analysis evs = true).
Proof.
  intros Ho. destruct Ho.
  - exists []. repeat split; try reflexivity; try discriminate.
    intros url code [].
  - exists [StorageUpload "Videos" (video_path env sid name)].
    repeat split; try reflexivity; try discriminate.
    intros url code [Hc|[]]. discriminate.
  - eexists [_; _]. repeat split; try reflexivity; try discriminate.
    intros url code [Hc|[Hc|[]]]; discriminate.
  - eexists [_; _; _]. repeat split; try reflexivity; try discriminate.
    intros url code [Hc|[Hc|[Hc|[]]]]; discriminate.
  - eexists [_; _; _]. repeat split; try reflexivity; try discriminate.
    intros url code [Hc|[Hc|[Hc|[]]]]; discriminate.
  - eexists [_; _; _; _; _]. repeat split; try reflexivity; try discriminate.
    intros url code [Hc|[Hc|[Hc|[Hc|[Hc|[]]]]]]; try discriminate.
    injection Hc as <- <-. exists name, first, rest. repeat split; assumption.
  - destruct (report_step_spec json_decode get_public_url env sid
                (verdict_of json_decode (payload_of get_public_url env sid name first))
                (judged json_decode get_public_url env sid name first s))
      as (s2 & evs & Hrep & _ & _ & Htr & Hq).
    match goal with Hr : report_step _ _ _ _ _ _ = _ |- _ =>
      rewrite Hr in Hrep; injection Hrep as <- end.
    destruct (report_events_quiet sid evs Hq) as [Hq1 Hq2].
    eexists (evs ++ [_; _; _; _; _])%list. split; [|split; [|split]].
    + rewrite Htr, <- app_assoc. reflexivity.
    + rewrite !existsb_app, Hq1, Hq2. reflexivity.
    + intros url code Hin. apply in_app_iff in Hin as [Hin|Hin].
      * exfalso. assert (Hex : existsb is_analysis evs = true).
        { apply existsb_exists. eexists. split; [exact Hin | reflexivity]. }
        congruence.
      * destruct Hin as [Hc|[Hc|[Hc|[Hc|[Hc|[]]]]]]; try discriminate.
        injection Hc as <- <-. exists name, first, rest.
        repeat split; assumption.
    + intros _. rewrite existsb_app, Hq1. reflexivity.
Qed.

(** The records of the session once [upload_video] has returned. *)
Lemma completed_rows env sid name first s s' :
  report_step json_decode get_public_url env sid
    (verdict_of json_decode (payload_of get_public_url env sid name first))
    (judged json_decode get_public_url env sid name first s) = (Return tt, s') ->
  report_url s' =
    (if link_reached json_decode env sid
          (verdict_of json_decode (payload_of get_public_url env sid name first))
     then PStr (report_link get_public_url sid) else PNone) /\
  count_case sid (inspections s') = count_case sid (inspections s) /\
  (forall r, In r (inspections s') -> row_matches sid r = true ->
     r !! "status" = Some (PStr "completed") /\
     r !! "ai_result" =
       Some (verdict_of json_decode (payload_of get_public_url env sid name first)))
  /\
  (link_saved json_decode env sid
     (verdict_of json_decode (payload_of get_public_url env sid name first)) = true ->
   forall r, In r (inspections s') -> row_matches sid r = true ->
     r !! "report_url" = Some (PStr (report_link get_public_url sid))) /\
  (link_saved json_decode env sid
     (verdict_of json_decode (payload_of get_public_url env sid name first)) = false ->
   inspections s' =
     inspections (judged json_decode get_public_url env sid name first s)).
Proof.
  intros Hrun.
  set (d := verdict_of json_decode (payload_of get_public_url env sid name first)) in *.
  destruct (report_step_spec json_decode get_public_url env sid d
              (judged json_decode get_public_url env sid name first s))
    as (s2 & evs & Hrep & Hurl & Hrows & _).
  rewrite Hrun in Hrep. injection Hrep as <-.
  split; [exact Hurl|].
  assert (Hjudged : forall r,
    In r (inspections (judged json_decode get_public_url env sid name first s)) ->
    row_matches sid r = true ->
    r !! "status" = Some (PStr "completed") /\ r !! "ai_result" = Some d).
  { intros r Hr Hm.
    cbn [judged inspections set_inspections log analysed fetched] in Hr.
    fold d in Hr.
    split; eapply patched_rows; try exact Hr; try exact Hm; reflexivity. }
  assert (Hcount :
    count_case sid
      (inspections (judged json_decode get_public_url env sid name first s))
    = count_case sid (inspections s)).
  { cbn [judged inspections set_inspections log analysed fetched marked stored].
    rewrite !count_case_patch by reflexivity. reflexivity. }
  destruct (link_saved json_decode env sid d) eqn:Hsaved; rewrite Hrows.
  - split; [|split; [|split]].
    + rewrite count_case_patch by reflexivity. exact Hcount.
    + intros r Hr Hm. split.
      * eapply patched_rows_keep; try exact Hr; try exact Hm; try reflexivity.
        intros r1 Hr1 Hm1. apply (Hjudged r1 Hr1 Hm1).
      * eapply patched_rows_keep; try exact Hr; try exact Hm; try reflexivity.
        intros r1 Hr1 Hm1. apply (Hjudged r1 Hr1 Hm1).
    + intros _ r Hr Hm.
      eapply patched_rows; try exact Hr; try exact Hm; reflexivity.
    + discriminate.
  - split; [exact Hcount | split; [exact Hjudged | split]].
    + discriminate.
    + reflexivity.
Qed.

(** When storage and database answer and the session has a record,
    [upload_video] returns, whatever the gateway and the report step do. *)
Lemma upload_video_runs env sid file s name :
  filename file = Some name ->
  videos_upload env = None -> db_processing env = None ->
  db_fetch env = None -> db_verdict env = None ->
  (1 <= count_case sid (inspections s))%nat ->
  exists first rest s',
    List.filter (row_matches sid)
      (inspections (marked get_public_url env sid name s)) = first :: rest /\
    report_step json_decode get_public_url env sid
      (verdict_of json_decode (payload_of get_public_url env sid name first))
      (judged json_decode get_public_url env sid name first s) = (Return tt, s') /\
    upload_video json_decode get_public_url env sid file s =
      (Return (success_response (video_link get_public_url env sid name)
                 (verdict_of json_decode
                    (payload_of get_public_url env sid name first))
                 (report_url s')), s').
Proof.
  intros Hname Hv Hp Hf Hd Hc.
  pose proof (upload_video_outcome json_decode get_public_url env sid file s) as Ho.
  rewrite (surjective_pairing (upload_video _ _ env sid file s)).
  inversion Ho; subst; try congruence.
  - exfalso.
    match goal with Hz : List.filter _ _ = [] |- _ =>
      rewrite marked_rows in Hz; apply (f_equal (@length _)) in Hz;
      rewrite length_map in Hz end.
    unfold count_case in Hc. cbn [length] in *. lia.
  - assert (name0 = name) by congruence. subst name0.
    exists first, rest, (snd (upload_video json_decode get_public_url env sid file s)).
    split; [assumption | split; [assumption | congruence]].
Qed.

End Upload.
End UploadTheorems.
Export UploadTheorems.

(** * The claims on [upload_video] *)

Module UploadClaims.

Section Upload.

Variable json_decode : string -> option pyval.
Variable get_public_url : string -> string -> string.


Lemma undecodable_verdict payload :
  is_return (json_loads json_decode payload) = false ->
  verdict_of json_decode payload = dict [("raw", payload)].
Proof.
  unfold verdict_of. destruct (json_loads json_decode payload);
    [discriminate | reflexivity].
Qed.

Lemma unmatched_patch (patch : gmap string pyval) cid t :
  count_case cid t = 0%nat -> List.map (apply_patch patch cid) t = t.
Proof.
  intros Hc. rewrite <- (map_id t) at 2. apply map_ext_in.
  intros r Hr. unfold apply_patch.
  rewrite (no_record_no_match cid t r Hc Hr). reflexivity.
Qed.



(** C3: for a session id with no record, with storage and database up,
    [upload_video] raises the 404 and its own handler turns it into a 500;
    the table is left as it was. *)
Theorem unknown_session_answers_500 env sid file s name :
  filename file = Some name ->
  videos_upload env = None -> db_processing env = None -> db_fetch env = None ->
  count_case sid (inspections s) = 0%nat ->
  exists s',
    upload_video json_decode get_public_url env sid file s =
      (Raise (HTTPException 500 "404: Session not found"), s') /\
    http_status (Raise (HTTPException 500 "404: Session not found")) = 500 /\
    inspections s' = inspections s.
Proof.
  intros Hname Hv Hp Hf Hc.
  pose proof (upload_video_outcome json_decode get_public_url env sid file s) as Ho.
  exists (snd (upload_video json_decode get_public_url env sid file s)).
  rewrite (surjective_pairing (upload_video _ _ env sid file s)) at 1.
  assert (Hnone : forall n,
    List.filter (row_matches sid)
      (inspections (marked get_public_url env sid n s)) = []).
  { intros n. rewrite marked_rows. unfold count_case in Hc.
    destruct (List.filter (row_matches sid) (inspections s));
      [reflexivity | discriminate]. }
  inversion Ho; subst; try congruence;
    try (match goal with Hx : List.filter _ _ = _ :: _ |- _ =>
           rewrite Hnone in Hx; discriminate end).
  split; [congruence | split; [reflexivity|]].
  cbn [fetched marked inspections set_inspections log stored].
  apply unmatched_patch. exact Hc.
Qed.


(** C10: when the first record of the session holds [None] as its
    [verification_code], [upload_video] returns and the one code it hands
    to the gateway is [None]: the default of [.get] is not used. *)
Theorem null_code_reaches_gateway env sid file s name r0 rest0 :
  filename file = Some name ->
  videos_upload env = None -> db_processing env = None ->
  db_fetch env = None -> db_verdict env = None ->
  List.filter (row_matches sid) (inspections s) = r0 :: rest0 ->
  r0 !! "verification_code" = Some PNone ->
  exists v s' evs,
    upload_video json_decode get_public_url env sid file s = (Return v, s') /\
    trace s' = (evs ++ trace s)%list /\
    existsb is_analysis evs = true /\
    (forall url code, In (Analyze url code) evs ->
       code = PNone /\ code <> PStr "0000").
Proof.
  intros Hname Hv Hp Hf Hd Hrows Hnull.
  assert (Hc : (1 <= count_case sid (inspections s))%nat).
  { unfold count_case. rewrite Hrows. cbn. lia. }
  destruct (upload_video_runs json_decode get_public_url env sid file s name
              Hname Hv Hp Hf Hd Hc) as (first & rest & s' & _ & _ & Hrun).
  pose proof (upload_video_ends _ _ _ _ _ _ _ _ Hrun) as Ho.
  destruct (upload_trace _ _ _ _ _ _ _ _ Ho) as (evs & Htr & _ & Hcodes & Hret).
  eexists _, s', evs. split; [exact Hrun | split; [exact Htr | split]].
  - apply Hret. reflexivity.
  - intros url code Hin.
    destruct (Hcodes url code Hin) as (n & f & rs & Hn & Hfirst & _ & ->).
    destruct (marked_first get_public_url _ _ _ _ _ _ Hfirst)
      as (r1 & _ & _ & Hhd & ->).
    rewrite Hrows in Hhd. injection Hhd as <-.
    unfold expected_code_of. rewrite Hnull. split; [reflexivity | discriminate].
Qed.

(** A record without the column gets the default. *)
Lemma absent_code_defaults (r0 : gmap string pyval) :
  r0 !! "verification_code" = None -> expected_code_of r0 = PStr "0000".
Proof. intros H. unfold expected_code_of. rewrite H. reflexivity. Qed.


End Upload.

(** *** Runs on the sample session *)





Lemma unknown_session_answers_500_witness :
  exists s',
    upload_video Json.decode demo_url (quiet (Answered "{}")) "ghost" clip
      empty_store =
      (Raise (HTTPException 500 "404: Session not found"), s') /\
    http_status (Raise (HTTPException 500 "404: Session not found")) = 500 /\
    inspections s' = inspections empty_store.
Proof.
  apply (unknown_session_answers_500 Json.decode demo_url
           (quiet (Answered "{}")) "ghost" clip empty_store "clip.mp4");
    reflexivity.
Defined.



Lemma null_code_reaches_gateway_witness :
  let s := one_session PNone in
  exists v s' evs,
    upload_video Json.decode demo_url (quiet (Answered "{}")) "case-7" clip s
      = (Return v, s') /\
    trace s' = (evs ++ trace s)%list /\
    existsb is_analysis evs = true /\
    (forall url code, In (Analyze url code) evs ->
       code = PNone /\ code <> PStr "0000").
Proof.
  intros s.
  apply (null_code_reaches_gateway Json.decode demo_url (quiet (Answered "{}"))
           "case-7" clip s "clip.mp4" (session_row PNone) []);
    reflexivity.
Defined.


End UploadClaims.

(** * Further facts *)

Module ExtraFacts.

Lemma other_case_no_match cid cid' r :
  cid <> cid' -> row_matches cid r = true -> row_matches cid' r = false.
Proof.
  unfold row_matches. destruct (r !! "case_id") as [[| | | |c| |]|]; try discriminate.
  intros Hne Hm. apply String.eqb_eq in Hm. subst c.
  apply String.eqb_neq. exact Hne.
Qed.

Lemma filter_other_patch (patch : gmap string pyval) cid cid' t :
  cid <> cid' -> patch !! "case_id" = None ->
  List.filter (row_matches cid) (List.map (apply_patch patch cid') t)
  = List.filter (row_matches cid) t.
Proof.
  intros Hne Hp. rewrite filter_patch by exact Hp.
  rewrite <- (map_id (List.filter (row_matches cid) t)) at 2.
  apply map_ext_in. intros r Hr. apply filter_In in Hr as [_ Hm].
  unfold apply_patch. rewrite (other_case_no_match cid cid' r Hne Hm). reflexivity.
Qed.

End ExtraFacts.
Export ExtraFacts.

(** ** The distance *)

Module GeoExtras.
Local Open Scope R_scope.

Lemma sin_sq_neg x : sin (- x) ^ 2 = sin x ^ 2.
Proof. rewrite sin_neg. simpl. lra. Qed.


(** The quantity under the square roots, as the code computes it. *)
Lemma distance_as_haversine lat1 lon1 lat2 lon2 :
  calculate_distance lat1 lon1 lat2 lon2 =
  2 * 6371000 *
  asin (sqrt (hav (radians lat2 - radians lat1) +
              cos (radians lat1) * cos (radians lat2) *
              hav (radians lon2 - radians lon1))).
Proof. rewrite calculate_distance_haversine. reflexivity. Qed.


(** X1: the distance does not depend on the order of the two points. *)
Theorem calculate_distance_sym lat1 lon1 lat2 lon2 :
  calculate_distance lat1 lon1 lat2 lon2 = calculate_distance lat2 lon2 lat1 lon1.
Proof.
  rewrite !distance_as_haversine. unfold hav.
  replace ((radians lat1 - radians lat2) / 2)
    with (- ((radians lat2 - radians lat1) / 2)) by lra.
  replace ((radians lon1 - radians lon2) / 2)
    with (- ((radians lon2 - radians lon1) / 2)) by lra.
  rewrite !sin_sq_neg.
  rewrite (Rmult_comm (cos (radians lat2)) (cos (radians lat1))).
  reflexivity.
Qed.





End GeoExtras.

(** ** [initiate_session] *)

Module InitExtras.

Lemma pending_fields_other data code k :
  k <> "gps_lat" -> k <> "gps_long" -> k <> "status" ->
  k <> "verification_code" ->
  pending_fields data code !! k = None.
Proof.
  intros H1 H2 H3 H4. unfold pending_fields. cbn [list_to_map foldr uncurry].
  rewrite lookup_insert_ne by (intros Heq; apply H1; symmetry; exact Heq).
  rewrite lookup_insert_ne by (intros Heq; apply H2; symmetry; exact Heq).
  rewrite lookup_insert_ne by (intros Heq; apply H3; symmetry; exact Heq).
  rewrite lookup_insert_ne by (intros Heq; apply H4; symmetry; exact Heq).
  apply lookup_empty.
Qed.






(** X7: a call of [initiate_session] leaves every record in its place, and
    on each it changes nothing but the coordinates, the status and the
    code: a verdict, a video or a report of an earlier attempt stays on the
    record. *)
Theorem reinitiate_keeps_other_columns env data s i r k :
  nth_error (inspections s) i = Some r ->
  k <> "gps_lat" -> k <> "gps_long" -> k <> "status" ->
  k <> "verification_code" ->
  exists r',
    nth_error (inspections (snd (initiate_session env data s))) i = Some r' /\
    r' !! k = r !! k.
Proof.
  intros Hr H1 H2 H3 H4.
  pose proof (initiate_session_outcome env data s) as Ho.
  destruct Ho; cbn [inspections log set_inspections];
    try (exists r; split; [exact Hr | reflexivity]).
  - eexists. split.
    + rewrite nth_error_map, Hr. reflexivity.
    + apply patched_lookup_other. apply pending_fields_other; assumption.
  - exists r. split; [|reflexivity].
    rewrite nth_error_app1; [exact Hr|].
    apply nth_error_Some. congruence.
Qed.

Lemma reinitiate_keeps_other_columns_witness :
  exists r',
    nth_error (inspections (snd (initiate_session (db_up 4582) at_target
                                   finished_session))) 0 = Some r' /\
    r' !! "ai_result" = finished_row !! "ai_result".
Proof.
  apply (reinitiate_keeps_other_columns (db_up 4582) at_target finished_session
           0%nat finished_row "ai_result"); solve [reflexivity | discriminate].
Defined.

End InitExtras.

(** ** [upload_video] *)

Module UploadExtras.

Lemma processing_fields_other url k :
  k <> "video_url" -> k <> "status" -> processing_fields url !! k = None.
Proof.
  intros H1 H2. unfold processing_fields. cbn [list_to_map foldr uncurry].
  rewrite lookup_insert_ne by (intros Heq; apply H1; symmetry; exact Heq).
  rewrite lookup_insert_ne by (intros Heq; apply H2; symmetry; exact Heq).
  apply lookup_empty.
Qed.

Lemma verdict_fields_other d k :
  k <> "status" -> k <> "ai_result" -> verdict_fields d !! k = None.
Proof.
  intros H1 H2. unfold verdict_fields. cbn [list_to_map foldr uncurry].
  rewrite lookup_insert_ne by (intros Heq; apply H1; symmetry; exact Heq).
  rewrite lookup_insert_ne by (intros Heq; apply H2; symmetry; exact Heq).
  apply lookup_empty.
Qed.

Lemma report_fields_other gpu sid k :
  k <> "report_url" -> report_fields gpu sid !! k = None.
Proof.
  intros H1. unfold report_fields. cbn [list_to_map foldr uncurry].
  rewrite lookup_insert_ne by (intros Heq; apply H1; symmetry; exact Heq).
  apply lookup_empty.
Qed.

(** A patch leaves every record in its place and keeps the columns it does
    not name. *)
Lemma patch_keeps (patch : gmap string pyval) cid t i r k :
  patch !! k = None ->
  nth_error t i = Some r ->
  exists r', nth_error (List.map (apply_patch patch cid) t) i = Some r' /\
             r' !! k = r !! k.
Proof.
  intros Hk Hr. eexists. split.
  - rewrite nth_error_map, Hr. reflexivity.
  - apply patched_lookup_other. exact Hk.
Qed.

Lemma quiet_report_events gpu sid evs :
  Forall (report_event gpu sid) evs -> List.filter is_analysis evs = [].
Proof.
  induction 1 as [|ev evs Hev _ IH]; [reflexivity|].
  cbn [List.filter]. rewrite IH.
  destruct ev; cbn in Hev |- *; solve [reflexivity | contradiction].
Qed.

Lemma append_cons x (a b : string) : String x a ++ b = String x (a ++ b).
Proof. reflexivity. Qed.

Lemma has_char_app c a b : has_char c (a ++ b) = has_char c a || has_char c b.
Proof.
  induction a as [|x a IH]; [reflexivity|].
  rewrite append_cons. cbn [has_char]. rewrite IH. apply orb_assoc.
Qed.

Lemma append_assoc (a b c : string) : (a ++ b) ++ c = a ++ (b ++ c).
Proof.
  induction a as [|x a IH]; [reflexivity|].
  rewrite !append_cons, IH. reflexivity.
Qed.

Lemma append_empty_r (a : string) : a ++ "" = a.
Proof.
  induction a as [|x a IH]; [reflexivity|].
  rewrite append_cons, IH. reflexivity.
Qed.

Lemma split_last_from_clean sep acc s :
  has_char sep acc = false ->
  has_char sep (split_last_from sep acc s) = false.
Proof.
  revert acc. induction s as [|c s IH]; intros acc Hacc; [exact Hacc|].
  cbn [split_last_from]. destruct (Ascii.eqb c sep) eqn:Hc.
  - apply IH. reflexivity.
  - apply IH. rewrite has_char_app, Hacc. cbn [has_char]. rewrite Hc.
    reflexivity.
Qed.

Lemma split_last_from_suffix sep acc s :
  exists stem, acc ++ s = stem ++ split_last_from sep acc s.
Proof.
  revert acc. induction s as [|c s IH]; intros acc.
  - exists "". rewrite append_empty_r. reflexivity.
  - cbn [split_last_from]. destruct (Ascii.eqb c sep).
    + destruct (IH "") as [stem Hstem].
      change ("" ++ s) with s in Hstem.
      exists (acc ++ String c stem). rewrite append_assoc, append_cons.
      rewrite <- Hstem. reflexivity.
    + destruct (IH (acc ++ String c "")) as [stem Hstem].
      exists stem. rewrite <- Hstem, append_assoc. reflexivity.
Qed.

Lemma split_last_from_whole sep acc s :
  has_char sep s = false -> split_last_from sep acc s = acc ++ s.
Proof.
  revert acc. induction s as [|c s IH]; intros acc Hs.
  - cbn [split_last_from]. rewrite append_empty_r. reflexivity.
  - cbn [has_char] in Hs. apply orb_false_elim in Hs as [Hc Hs].
    cbn [split_last_from]. rewrite Hc, IH by exact Hs.
    apply append_assoc.
Qed.

(** X14: the extension given to the stored video, [filename.split(".")[-1]],
    has no dot and ends the file name; a file name without a dot is its own
    extension. *)
Theorem video_extension name :
  has_char "." (split_last "." name) = false /\
  (exists stem, name = stem ++ split_last "." name) /\
  (has_char "." name = false -> split_last "." name = name).
Proof.
  unfold split_last. split; [|split].
  - apply split_last_from_clean. reflexivity.
  - apply (split_last_from_suffix "." "" name).
  - intros Hn. rewrite split_last_from_whole by exact Hn. reflexivity.
Qed.

Section Upload.

Variable json_decode : string -> option pyval.
Variable get_public_url : string -> string -> string.

(** The table after the report step. *)
Lemma report_step_table env sid d s s' :
  report_step json_decode get_public_url env sid d s = (Return tt, s') ->
  inspections s' = inspections s \/
  inspections s' =
    List.map (apply_patch (report_fields get_public_url sid) sid) (inspections s).
Proof.
  intros Hrun.
  destruct (report_step_spec json_decode get_public_url env sid d s)
    as (s2 & evs & Hrep & _ & Hrows & _).
  rewrite Hrun in Hrep. injection Hrep as <-. rewrite Hrows.
  destruct (link_saved json_decode env sid d); [right | left]; reflexivity.
Qed.

(** X8: [upload_video] ends in one of two ways: it returns the success
    answer, or it raises an HTTP 500; no failure is answered by another
    status. *)
Theorem upload_failure_is_500 env sid file s :
  match fst (upload_video json_decode get_public_url env sid file s) with
  | Return v => exists url d ru, v = success_response url d ru
  | Raise e => exists detail, e = HTTPException 500 detail
  end.
Proof.
  pose proof (upload_video_outcome json_decode get_public_url env sid file s) as Ho.
  destruct Ho; eauto.
Qed.

(** X9: whatever way [upload_video] ends, the table has the records it
    had, each in its place, and on none of them has a column other than
    [video_url], [status], [ai_result] and [report_url] changed: the code,
    the case id and the coordinates stay. *)
Theorem upload_keeps_other_columns env sid file s i r k :
  nth_error (inspections s) i = Some r ->
  k <> "video_url" -> k <> "status" -> k <> "ai_result" -> k <> "report_url" ->
  length (inspections (snd (upload_video json_decode get_public_url env sid file s)))
  = length (inspections s) /\
  exists r',
    nth_error
      (inspections (snd (upload_video json_decode get_public_url env sid file s))) i
    = Some r' /\
    r' !! k = r !! k.
Proof.
  intros Hr H1 H2 H3 H4.
  pose proof (upload_video_outcome json_decode get_public_url env sid file s) as Ho.
  assert (Hmarked : forall name,
    exists r', nth_error (inspections (marked get_public_url env sid name s)) i
               = Some r' /\ r' !! k = r !! k).
  { intros name. cbn [marked inspections set_inspections log stored].
    apply patch_keeps; [apply processing_fields_other; assumption | exact Hr]. }
  assert (Hlen : forall name,
    length (inspections (marked get_public_url env sid name s))
    = length (inspections s)).
  { intros name. cbn [marked inspections set_inspections log stored].
    apply length_map. }
  destruct Ho; cbn [inspections log stored fetched analysed];
    try (split; [reflexivity | exists r; split; [exact Hr | reflexivity]]);
    try (split; [apply Hlen | apply Hmarked]).
  destruct (Hmarked name) as (r1 & Hr1 & Hk1).
  assert (Hjudged :
    exists r2,
      nth_error (inspections (judged json_decode get_public_url env sid name first s)) i
      = Some r2 /\ r2 !! k = r !! k).
  { cbn [judged inspections set_inspections log analysed fetched].
    destruct (patch_keeps
                (verdict_fields
                   (verdict_of json_decode
                      (payload_of get_public_url env sid name first)))
                sid (inspections (marked get_public_url env sid name s)) i r1 k)
      as (r2 & Hr2 & Hk2);
      [apply verdict_fields_other; assumption | exact Hr1 |].
    exists r2. split; [exact Hr2 | congruence]. }
  assert (Hjlen :
    length (inspections (judged json_decode get_public_url env sid name first s))
    = length (inspections s)).
  { cbn [judged inspections set_inspections log analysed fetched].
    rewrite length_map. apply Hlen. }
  match goal with Hrep : report_step _ _ _ _ _ _ = _ |- _ =>
    destruct (report_step_table _ _ _ _ _ Hrep) as [Heq | Heq] end;
    rewrite Heq.
  - split; [exact Hjlen | exact Hjudged].
  - destruct Hjudged as (r2 & Hr2 & Hk2). split.
    + rewrite length_map. exact Hjlen.
    + destruct (patch_keeps (report_fields get_public_url sid) sid _ i r2 k
                  (report_fields_other _ _ _ H4) Hr2) as (r3 & Hr3 & Hk3).
      exists r3. split; [exact Hr3 | congruence].
Qed.

(** X10: whatever way [upload_video] ends, the records of every other
    session are the ones that were there. *)
Theorem other_sessions_untouched env sid file s cid :
  cid <> sid ->
  List.filter (row_matches cid)
    (inspections (snd (upload_video json_decode get_public_url env sid file s)))
  = List.filter (row_matches cid) (inspections s).
Proof.
  intros Hne.
  pose proof (upload_video_outcome json_decode get_public_url env sid file s) as Ho.
  assert (Hmarked : forall name,
    List.filter (row_matches cid)
      (inspections (marked get_public_url env sid name s))
    = List.filter (row_matches cid) (inspections s)).
  { intros name. cbn [marked inspections set_inspections log stored].
    apply filter_other_patch; [exact Hne | reflexivity]. }
  assert (Hjudged : forall name first,
    List.filter (row_matches cid)
      (inspections (judged json_decode get_public_url env sid name first s))
    = List.filter (row_matches cid) (inspections s)).
  { intros name first. cbn [judged inspections set_inspections log analysed fetched].
    rewrite filter_other_patch; [apply Hmarked | exact Hne | reflexivity]. }
  destruct Ho; cbn [inspections log stored fetched analysed];
    try reflexivity; try apply Hmarked.
  match goal with Hrep : report_step _ _ _ _ _ _ = _ |- _ =>
    destruct (report_step_table _ _ _ _ _ Hrep) as [Heq | Heq] end;
    rewrite Heq.
  - apply Hjudged.
  - rewrite filter_other_patch; [apply Hjudged | exact Hne | reflexivity].
Qed.

(** X11: when [upload_video] raises after it has marked the session, the
    records of the session are left with the status [processing] and the
    URL of the new video: no later call of this request sets them back or
    forward. *)
Theorem failed_submit_stays_processing env sid file s name e s' :
  filename file = Some name ->
  videos_upload env = None -> db_processing env = None ->
  upload_video json_decode get_public_url env sid file s = (Raise e, s') ->
  forall r, In r (inspections s') -> row_matches sid r = true ->
    r !! "status" = Some (PStr "processing") /\
    r !! "video_url" = Some (PStr (video_link get_public_url env sid name)).
Proof.
  intros Hname Hv Hp Hrun. apply upload_video_ends in Hrun.
  assert (Hmarked : forall r,
    In r (inspections (marked get_public_url env sid name s)) ->
    row_matches sid r = true ->
    r !! "status" = Some (PStr "processing") /\
    r !! "video_url" = Some (PStr (video_link get_public_url env sid name))).
  { intros r Hr Hm. cbn [marked inspections set_inspections log stored] in Hr.
    split; eapply patched_rows; try exact Hr; try exact Hm; reflexivity. }
  inversion Hrun; subst; try congruence;
    match goal with Hn : filename file = Some ?n |- _ =>
      assert (n = name) by congruence; subst n end;
    cbn [inspections log fetched analysed]; exact Hmarked.
Qed.

(** X12: when [upload_video] returns, the [video_url] of its answer is the
    one on every record of the session, and so is its [report_url] whenever
    the report step got as far as saving it. *)
Theorem answer_matches_record env sid file s v s' :
  upload_video json_decode get_public_url env sid file s = (Return v, s') ->
  exists name first,
    v = success_response (video_link get_public_url env sid name)
          (verdict_of json_decode (payload_of get_public_url env sid name first))
          (report_url s') /\
    forall r, In r (inspections s') -> row_matches sid r = true ->
      r !! "video_url" = Some (PStr (video_link get_public_url env sid name)) /\
      (link_saved json_decode env sid
         (verdict_of json_decode (payload_of get_public_url env sid name first))
       = true ->
       r !! "report_url" = Some (report_url s')).
Proof.
  intros Hrun. apply upload_video_ends in Hrun. inversion Hrun; subst.
  exists name, first. split; [reflexivity|].
  match goal with Hr : report_step _ _ _ _ _ _ = _ |- _ =>
    destruct (completed_rows _ _ _ _ _ _ _ _ Hr) as (Hurl & _ & _ & Hsaved & _);
    pose proof (report_step_table _ _ _ _ _ Hr) as Htable end.
  assert (Hjudged : forall r,
    In r (inspections (judged json_decode get_public_url env sid name first s)) ->
    row_matches sid r = true ->
    r !! "video_url" = Some (PStr (video_link get_public_url env sid name))).
  { intros r Hr Hm.
    cbn [judged inspections set_inspections log analysed fetched marked stored] in Hr.
    eapply patched_rows_keep; try exact Hr; try exact Hm; try reflexivity.
    intros r1 Hr1 Hm1.
    eapply patched_rows; try exact Hr1; try exact Hm1; reflexivity. }
  intros r Hr Hm. split.
  - destruct Htable as [Heq | Heq]; rewrite Heq in Hr.
    + apply Hjudged; assumption.
    + eapply patched_rows_keep; try exact Hr; try exact Hm; try reflexivity.
      exact Hjudged.
  - intros Hs. rewrite Hurl.
    assert (Hreached :
      link_reached json_decode env sid
        (verdict_of json_decode (payload_of get_public_url env sid name first))
      = true).
    { unfold link_saved in Hs. apply andb_prop in Hs as [Hs _]. exact Hs. }
    rewrite Hreached. apply (Hsaved Hs r Hr Hm).
Qed.

(** X13: one call of [upload_video] calls the gateway once when the file
    has a name, storage and the first two database calls answer and the
    session has a record, and not at all otherwise. *)
Theorem gateway_called_once env sid file s :
  exists evs,
    trace (snd (upload_video json_decode get_public_url env sid file s))
    = (evs ++ trace s)%list /\
    length (List.filter is_analysis evs)
    = if reaches_gateway env sid file s then 1%nat else 0%nat.
Proof.
  pose proof (upload_video_outcome json_decode get_public_url env sid file s) as Ho.
  assert (Hcount : forall name first rest,
    List.filter (row_matches sid)
      (inspections (marked get_public_url env sid name s)) = first :: rest ->
    Nat.eqb (count_case sid (inspections s)) 0 = false).
  { intros name first rest Hf. rewrite marked_rows in Hf.
    apply (f_equal (@length _)) in Hf. rewrite length_map in Hf.
    unfold count_case. apply Nat.eqb_neq. cbn [length] in Hf. lia. }
  unfold reaches_gateway.
  destruct Ho;
    repeat match goal with H : _ = _ |- _ => rewrite H end; cbn [no_fault andb].
  - exists []. split; reflexivity.
  - eexists [_]. split; reflexivity.
  - eexists [_; _]. split; reflexivity.
  - eexists [_; _; _]. split; reflexivity.
  - eexists [_; _; _]. split; [reflexivity|].
    match goal with Hf : List.filter _ _ = [] |- _ =>
      rewrite marked_rows in Hf; apply (f_equal (@length _)) in Hf;
      rewrite length_map in Hf end.
    unfold count_case. cbn [length] in *.
    match goal with Hf : length _ = 0%nat |- _ => rewrite Hf end. reflexivity.
  - eexists [_; _; _; _; _]. split; [reflexivity|].
    erewrite Hcount by eassumption. reflexivity.
  - destruct (report_step_spec json_decode get_public_url env sid
                (verdict_of json_decode (payload_of get_public_url env sid name first))
                (judged json_decode get_public_url env sid name first s))
      as (s2 & evs & Hrep & _ & _ & Htr & Hq).
    match goal with Hr : report_step _ _ _ _ _ _ = _ |- _ =>
      rewrite Hr in Hrep; injection Hrep as <- end.
    eexists (evs ++ [_; _; _; _; _])%list. split.
    + rewrite Htr, <- app_assoc. reflexivity.
    + rewrite List.filter_app, (quiet_report_events _ _ _ Hq).
      erewrite Hcount by eassumption. reflexivity.
Qed.

End Upload.

Lemma upload_keeps_other_columns_witness :
  let out := upload_video Json.decode demo_url (quiet (Answered "{}")) "case-7"
               clip finished_session in
  length (inspections (snd out)) = length (inspections finished_session) /\
  exists r',
    nth_error (inspections (snd out)) 0 = Some r' /\
    r' !! "verification_code" = finished_row !! "verification_code".
Proof.
  intros out.
  apply (upload_keeps_other_columns Json.decode demo_url (quiet (Answered "{}"))
           "case-7" clip finished_session 0%nat finished_row "verification_code");
    solve [reflexivity | discriminate].
Defined.

Lemma other_sessions_untouched_witness :
  List.filter (row_matches "case-7")
    (inspections (snd (upload_video Json.decode demo_url (quiet (Answered "{}"))
                         "case-8" clip finished_session)))
  = List.filter (row_matches "case-7") (inspections finished_session).
Proof.
  apply (other_sessions_untouched Json.decode demo_url (quiet (Answered "{}"))
           "case-8" clip finished_session "case-7").
  discriminate.
Defined.

Lemma failed_submit_stays_processing_witness :
  let env := verdict_unsaved (Answered "{}") in
  let out := upload_video Json.decode demo_url env "case-7" clip
               (one_session (PStr "4582")) in
  fst out = Raise (HTTPException 500 "connection reset") /\
  forall r, In r (inspections (snd out)) -> row_matches "case-7" r = true ->
    r !! "status" = Some (PStr "processing") /\
    r !! "video_url" = Some (PStr (video_link demo_url env "case-7" "clip.mp4")).
Proof.
  intros env out. split; [reflexivity|].
  apply (failed_submit_stays_processing Json.decode demo_url env "case-7" clip
           (one_session (PStr "4582")) "clip.mp4"
           (HTTPException 500 "connection reset") (snd out));
    reflexivity.
Defined.

Lemma answer_matches_record_witness :
  let env := quiet (Answered "{}") in
  let out := upload_video Json.decode demo_url env "case-7" clip
               (one_session (PStr "4582")) in
  exists name first,
    success_response (demo_url "Videos" "case-7_u1.mp4") (dict [])
      (PStr (demo_url "Reports" "report_case-7.pdf"))
    = success_response (video_link demo_url env "case-7" name)
        (verdict_of Json.decode (payload_of demo_url env "case-7" name first))
        (report_url (snd out)) /\
    forall r, In r (inspections (snd out)) -> row_matches "case-7" r = true ->
      r !! "video_url" = Some (PStr (video_link demo_url env "case-7" name)) /\
      (link_saved Json.decode env "case-7"
         (verdict_of Json.decode (payload_of demo_url env "case-7" name first))
       = true ->
       r !! "report_url" = Some (report_url (snd out))).
Proof.
  intros env out.
  apply (answer_matches_record Json.decode demo_url env "case-7" clip
           (one_session (PStr "4582"))).
  vm_compute. reflexivity.
Defined.

End UploadExtras.

(** ** [generate_pdf] *)

Module PdfExtras.

Section Pdf.

Variable json_decode : string -> option pyval.
Variable get_public_url : string -> string -> string.

(** How [generate_pdf] ends, in any state. *)
Lemma generate_pdf_run env sid ai_data st :
  if renderable (as_verdict json_decode ai_data)
  then generate_pdf json_decode env sid ai_data st
       = (match pdf_output env with
          | Some msg => Raise (PyExc "Exception" msg)
          | None => Return (report_name sid)
          end, log (PdfOutput (report_name sid)) st)
  else generate_pdf json_decode env sid ai_data st
       = (Raise (PyExc "AttributeError" "object has no attribute 'get'"), st).
Proof.
  unfold generate_pdf.
  assert (Hd : match ai_data with
               | PStr _ =>
                   match json_loads json_decode ai_data with
                   | Return v => v
                   | Raise _ => dict []
                   end
               | _ => ai_data
               end = as_verdict json_decode ai_data).
  { destruct ai_data as [| | | |t| |]; try reflexivity.
    cbn [json_loads as_verdict]. destruct (json_decode t); reflexivity. }
  rewrite Hd. clear Hd.
  set (d := as_verdict json_decode ai_data). clearbody d.
  run. unfold report_name, renderable, dict_or_absent.
  destruct d as [| | | | | |dd]; cbn [py_get]; try reflexivity.
  destruct (dd !! "liveness_check") as [[| | | | | |lv]|];
    cbn [py_get andb]; try reflexivity;
    destruct (dd !! "stock_assessment") as [[| | | | | |sv]|];
    cbn [py_get andb]; try reflexivity;
    destruct (pdf_output env); reflexivity.
Qed.

Lemma pdf_ok_renderable env sid ai_data :
  pdf_ok json_decode env sid ai_data
  = renderable (as_verdict json_decode ai_data) && no_fault (pdf_output env).
Proof.
  unfold pdf_ok.
  pose proof (generate_pdf_run env sid ai_data (mkState [] [] PNone)) as H.
  destruct (renderable (as_verdict json_decode ai_data)); rewrite H.
  - destruct (pdf_output env); reflexivity.
  - reflexivity.
Qed.

(** X15: [generate_pdf] returns, and then returns the name
    [report_<session_id>.pdf], exactly when FPDF does not fail and the
    verdict (decoded first when it is a str, an undecodable str counting as
    the empty dict) is a dict whose [liveness_check] and [stock_assessment]
    are dicts or missing; in every other case it raises. *)
Theorem generate_pdf_succeeds_iff env sid ai_data st :
  if renderable (as_verdict json_decode ai_data) && no_fault (pdf_output env)
  then fst (generate_pdf json_decode env sid ai_data st)
       = Return ("report_" ++ sid ++ ".pdf")
  else is_return (fst (generate_pdf json_decode env sid ai_data st)) = false.
Proof.
  pose proof (generate_pdf_run env sid ai_data st) as H.
  destruct (renderable (as_verdict json_decode ai_data)); rewrite H;
    cbn [andb]; [|reflexivity].
  destruct (pdf_output env); reflexivity.
Qed.

(** X16: when [json.loads] rejects what the gateway returned and every
    service answers, the verdict [{"raw": payload}] still gets its report:
    the answer carries the URL of the PDF and every record of the session
    holds it. A failure of the final file removal changes nothing to
    that. *)
Theorem degraded_verdict_is_reported env sid file s name :
  filename file = Some name ->
  videos_upload env = None -> db_processing env = None ->
  db_fetch env = None -> db_verdict env = None ->
  pdf_output env = None -> pdf_open env = None ->
  reports_upload env = None -> db_report env = None ->
  (1 <= count_case sid (inspections s))%nat ->
  (forall url code,
     is_return (json_loads json_decode (gateway_value (gateway env url code)))
     = false) ->
  exists first s',
    upload_video json_decode get_public_url env sid file s =
      (Return
         (success_response (video_link get_public_url env sid name)
            (dict [("raw", payload_of get_public_url env sid name first)])
            (PStr (report_link get_public_url sid))), s') /\
    (forall r, In r (inspections s') -> row_matches sid r = true ->
       r !! "report_url" = Some (PStr (report_link get_public_url sid))).
Proof.
  intros Hname Hv Hp Hf Hd Hout Hopen Hup Hrep Hc Hbad.
  destruct (upload_video_runs json_decode get_public_url env sid file s name
              Hname Hv Hp Hf Hd Hc) as (first & rest & s' & _ & Hstep & Hrun).
  destruct (completed_rows _ _ _ _ _ _ _ _ Hstep)
    as (Hurl & _ & _ & Hsaved & _).
  assert (Hraw :
    verdict_of json_decode (payload_of get_public_url env sid name first)
    = dict [("raw", payload_of get_public_url env sid name first)]).
  { apply UploadClaims.undecodable_verdict. apply Hbad. }
  rewrite Hraw in *.
  assert (Hreached :
    link_reached json_decode env sid
      (dict [("raw", payload_of get_public_url env sid name first)]) = true).
  { unfold link_reached. rewrite pdf_ok_renderable, Hout, Hopen, Hup.
    reflexivity. }
  assert (Hlink :
    link_saved json_decode env sid
      (dict [("raw", payload_of get_public_url env sid name first)]) = true).
  { unfold link_saved. rewrite Hreached, Hrep. reflexivity. }
  rewrite Hreached in Hurl. rewrite Hurl in Hrun.
  exists first, s'. split; [exact Hrun | exact (Hsaved Hlink)].
Qed.


End Pdf.

Lemma degraded_verdict_is_reported_witness :
  let env := quiet (GeneralError "timeout") in
  let s := one_session (PStr "4582") in
  exists first s',
    upload_video Json.decode demo_url env "case-7" clip s =
      (Return
         (success_response (video_link demo_url env "case-7" "clip.mp4")
            (dict [("raw", payload_of demo_url env "case-7" "clip.mp4" first)])
            (PStr (report_link demo_url "case-7"))), s') /\
    (forall r, In r (inspections s') -> row_matches "case-7" r = true ->
       r !! "report_url" = Some (PStr (report_link demo_url "case-7"))).
Proof.
  intros env s.
  apply (degraded_verdict_is_reported Json.decode demo_url env "case-7" clip s
           "clip.mp4"); reflexivity.
Defined.


End PdfExtras.

(** ** [analyze_video] *)

Module AiExtras.

(** *** The temporary file *)

Lemma remove_present env name s :
  name ∈ local_files s -> os_remove env = None ->
  remove_if_exists env name s = (Return tt, delete_file name s).
Proof.
  intros Hin Hrm. unfold remove_if_exists.
  destruct (decide (name ∈ local_files s)); [|contradiction].
  now rewrite Hrm.
Qed.

Lemma remove_present_fault env name s msg :
  name ∈ local_files s -> os_remove env = Some msg ->
  remove_if_exists env name s = (Raise (PyExc "OSError" msg), s).
Proof.
  intros Hin Hrm. unfold remove_if_exists.
  destruct (decide (name ∈ local_files s)); [|contradiction].
  now rewrite Hrm.
Qed.

Lemma remove_absent env name s :
  name ∉ local_files s -> remove_if_exists env name s = (Return tt, s).
Proof.
  intros Hin. unfold remove_if_exists.
  destruct (decide (name ∈ local_files s)); [contradiction|reflexivity].
Qed.

(** What [remove_if_exists] does to the state, however it ends. *)
Lemma remove_if_exists_files env name s r s' :
  remove_if_exists env name s = (r, s') ->
  slept s' = slept s /\
  (forall other, other <> name ->
     (other ∈ local_files s' <-> other ∈ local_files s)) /\
  (r = Return tt /\ name ∉ local_files s' \/
   exists msg, os_remove env = Some msg /\ r = Raise (PyExc "OSError" msg)
               /\ s' = s /\ name ∈ local_files s).
Proof.
  unfold remove_if_exists.
  destruct (decide (name ∈ local_files s)) as [Hin|Hout].
  - destruct (os_remove env) as [msg|] eqn:Hrm; intros [= <- <-].
    + split; [reflexivity|]. split; [tauto|]. right. now exists msg.
    + split; [reflexivity|]. split.
      * intros other Hne. cbn. rewrite elem_of_difference, elem_of_singleton.
        tauto.
      * left. split; [reflexivity|]. cbn.
        rewrite elem_of_difference, elem_of_singleton. tauto.
  - intros [= <- <-]. split; [reflexivity|]. split; [tauto|]. now left.
Qed.

Lemma temp_made name (files : gset string) : name ∈ {[name]} ∪ files.
Proof. apply elem_of_union_l, elem_of_singleton. reflexivity. Qed.

Lemma temp_gone name (files : gset string) : name ∉ files ∖ {[name]}.
Proof. rewrite elem_of_difference, elem_of_singleton. tauto. Qed.

(** *** The wait *)

Lemma processing_eqb : String.eqb "PROCESSING" "PROCESSING" = true.
Proof. reflexivity. Qed.

(** The wait asks once for every [PROCESSING] it sees and sleeps two
    seconds before each question. *)
Lemma wait_ready n : forall st answers final rest s,
  Remote st :: answers
    = (replicate n (Remote "PROCESSING") ++ Remote final :: rest)%list ->
  final <> "PROCESSING" ->
  wait_while_processing st answers s
    = Some (Return final,
            mkAiState (local_files s) (slept s + 2 * Z.of_nat n)).
Proof.
  induction n as [|n IH]; intros st answers final rest s Heq Hfin.
  - cbn in Heq. injection Heq as -> ->.
    destruct rest; cbn; apply String.eqb_neq in Hfin; rewrite Hfin;
      destruct s; cbn; do 2 f_equal; f_equal; lia.
  - cbn [replicate app] in Heq. injection Heq as -> ->.
    destruct n as [|n].
    + cbn [replicate app]. cbn [wait_while_processing].
      rewrite processing_eqb.
      rewrite (IH final rest final rest (sleep 2 s) eq_refl Hfin).
      cbn. do 3 f_equal. lia.
    + cbn [replicate app]. cbn [wait_while_processing].
      rewrite processing_eqb.
      rewrite (IH "PROCESSING"
                 (replicate n (Remote "PROCESSING") ++ Remote final :: rest)%list
                 final rest (sleep 2 s) eq_refl Hfin).
      cbn. do 3 f_equal. lia.
Qed.

Lemma wait_error n : forall st answers msg rest s,
  Remote st :: answers
    = (replicate n (Remote "PROCESSING") ++ RemoteError msg :: rest)%list ->
  wait_while_processing st answers s
    = Some (Raise (PyExc "APIError" msg),
            mkAiState (local_files s) (slept s + 2 * Z.of_nat n)).
Proof.
  induction n as [|n IH]; intros st answers msg rest s Heq.
  - discriminate.
  - cbn [replicate app] in Heq. injection Heq as -> ->.
    destruct n as [|n].
    + cbn [replicate app]. cbn [wait_while_processing].
      rewrite processing_eqb. cbn. do 3 f_equal.
    + cbn [replicate app]. cbn [wait_while_processing].
      rewrite processing_eqb.
      rewrite (IH "PROCESSING"
                 (replicate n (Remote "PROCESSING") ++ RemoteError msg :: rest)%list
                 msg rest (sleep 2 s) eq_refl).
      cbn. do 3 f_equal. lia.
Qed.

(** The wait touches no file and never sleeps a negative time. *)
Lemma wait_files answers : forall st s r s',
  wait_while_processing st answers s = Some (r, s') ->
  local_files s' = local_files s /\ slept s <= slept s'.
Proof.
  induction answers as [|a rest IH]; intros st s r s'; cbn.
  - destruct (String.eqb st "PROCESSING"); [discriminate|].
    intros [= <- <-]. split; [reflexivity|lia].
  - destruct (String.eqb st "PROCESSING").
    + destruct a as [st'|msg].
      * intros H. apply IH in H. cbn in H. destruct H. split; [easy|lia].
      * intros [= <- <-]. cbn. split; [reflexivity|lia].
    + intros [= <- <-]. split; [reflexivity|lia].
Qed.

Lemma wait_settles answers : forall st s,
  Exists (fun a => a <> Remote "PROCESSING") (Remote st :: answers) ->
  is_Some (wait_while_processing st answers s).
Proof.
  induction answers as [|a rest IH]; intros st s Hex.
  - cbn. destruct (String.eqb st "PROCESSING") eqn:E; [|eauto].
    apply String.eqb_eq in E. subst st.
    apply Exists_cons in Hex as [Hne|Hex]; [congruence|].
    now apply Exists_nil in Hex.
  - cbn. destruct (String.eqb st "PROCESSING") eqn:E; [|eauto].
    apply String.eqb_eq in E. subst st.
    apply Exists_cons in Hex as [Hne|Hex]; [congruence|].
    destruct a as [st'|msg]; [|eauto]. now apply IH.
Qed.

(** *** The handlers *)

(** The outer handler: the temporary file goes, the message is returned;
    the handler raises when [os.remove] does. *)
Lemma handler_run env e s :
  bind (remove_if_exists env (temp_name env))
    (fun _ => ret (dict [("error", PStr (str_exn e))])) s
  = match remove_if_exists env (temp_name env) s with
    | (Return _, s') => (Return (dict [("error", PStr (str_exn e))]), s')
    | (Raise e', s') => (Raise e', s')
    end.
Proof.
  unfold bind, ret. now destruct (remove_if_exists _ _ s) as [[[]|e'] s'].
Qed.

(** The generation step never raises. *)
Lemma generation_step_run env code s :
  generation_step env (temp_name env) code s
  = match generate env code with
    | GenerationError msg =>
        (Return (dict [("error", PStr ("AI Generation Failed: " ++ msg))]), s)
    | Generated None =>
        (Return (dict [("error",
                   PStr ("AI Generation Failed: " ++
                         "'NoneType' object is not subscriptable"))]), s)
    | Generated (Some text) =>
        match remove_if_exists env (temp_name env) s with
        | (Return _, s') => (Return (PStr (encode (clean_text text))), s')
        | (Raise e, s') =>
            (Return (dict [("error",
                       PStr ("AI Generation Failed: " ++ str_exn e))]), s')
        end
    end.
Proof.
  unfold generation_step, try_except, ret.
  destruct (generate env code) as [[text|]|msg]; try reflexivity.
  now destruct (remove_if_exists _ _ s) as [[[]|e'] s'].
Qed.

Lemma guarded_generation_run env code (handler : exn -> M ai_state pyval) s :
  try_except (generation_step env (temp_name env) code) handler s
  = generation_step env (temp_name env) code s.
Proof.
  unfold try_except. rewrite generation_step_run.
  destruct (generate env code) as [[text|]|msg]; try reflexivity.
  now destruct (remove_if_exists _ _ s) as [[[]|e'] s'].
Qed.

(** Every run ends in the outer handler or in the generation step, the
    temporary file being the only local file that may have been added. *)
Lemma analyze_video_cases env video_url code s out :
  analyze_video_run env video_url code s = Some out ->
  exists s0,
    slept s <= slept s0 /\
    (forall other, other <> temp_name env ->
       (other ∈ local_files s0 <-> other ∈ local_files s)) /\
    ((exists e,
        out = bind (remove_if_exists env (temp_name env))
                (fun _ => ret (dict [("error", PStr (str_exn e))])) s0) \/
     (temp_name env ∈ local_files s0 /\
      out = generation_step env (temp_name env) code s0)).
Proof.
  assert (Hmade : forall other, other <> temp_name env ->
            (other ∈ local_files (create_file (temp_name env) s)
             <-> other ∈ local_files s)).
  { intros other Hne. cbn. rewrite elem_of_union, elem_of_singleton. tauto. }
  unfold analyze_video_run.
  destruct (download env) as [|msg|msg].
  - destruct (files_upload env) as [st|msg].
    + destruct (wait_while_processing st (files_get env)
                  (create_file (temp_name env) s)) as [[[final|e] s2]|] eqn:Hw;
        [| |discriminate];
        destruct (wait_files _ _ _ _ _ Hw) as [Hf Hs]; cbn in Hs.
      * destruct (String.eqb final "FAILED").
        -- intros [= <-]. exists s2. split; [lia|]. split.
           { intros other Hne. rewrite Hf. now apply Hmade. }
           left. first [now eexists | now eexists (PyExc "Exception" _)].
        -- intros [= <-]. exists s2. split; [lia|]. split.
           { intros other Hne. rewrite Hf. now apply Hmade. }
           right. split.
           { rewrite Hf. cbn. rewrite elem_of_union, elem_of_singleton. tauto. }
           apply guarded_generation_run.
      * intros [= <-]. exists s2. split; [lia|]. split.
        { intros other Hne. rewrite Hf. now apply Hmade. }
        left. first [now eexists | now eexists (PyExc "Exception" _)].
    + intros [= <-]. exists (create_file (temp_name env) s). cbn.
      split; [lia|]. split; [exact Hmade|]. left. first [now eexists | now eexists (PyExc "Exception" _)].
  - intros [= <-]. exists s. split; [lia|]. split; [tauto|]. left. first [now eexists | now eexists (PyExc "Exception" _)].
  - intros [= <-]. exists (create_file (temp_name env) s). cbn.
    split; [lia|]. split; [exact Hmade|]. left. first [now eexists | now eexists (PyExc "Exception" _)].
Qed.

(** The run of a call whose download and upload succeed and whose file
    leaves [PROCESSING] after [n] questions. *)
Lemma analyze_video_ready env video_url code s n final rest :
  download env = Downloaded ->
  (files_upload env :: files_get env
     = replicate n (Remote "PROCESSING") ++ Remote final :: rest)%list ->
  final <> "PROCESSING" ->
  let s2 := mkAiState ({[temp_name env]} ∪ local_files s)
              (slept s + 2 * Z.of_nat n) in
  analyze_video_run env video_url code s
  = Some (if String.eqb final "FAILED"
          then bind (remove_if_exists env (temp_name env))
                 (fun _ => ret (dict [("error",
                    PStr "Gemini failed to process video file.")])) s2
          else generation_step env (temp_name env) code s2).
Proof.
  intros Hd Hseq Hfin s2. unfold analyze_video_run. rewrite Hd.
  destruct (files_upload env) as [st|msg] eqn:Hup.
  - rewrite (wait_ready n st (files_get env) final rest _ Hseq Hfin).
    cbn [local_files slept create_file]. fold s2.
    destruct (String.eqb final "FAILED"); [reflexivity|].
    now rewrite guarded_generation_run.
  - destruct n; discriminate.
Qed.

Section Runs.

Variables (env : ai_env) (video_url : string) (code : pyval) (s : ai_state).
Variables (n : nat) (rest : list remote).

(** X18: when the file store ends the processing with state [FAILED], after
    any number [n] of [PROCESSING] answers, the call returns the error
    dict with the fixed message, the temporary file is gone and the call
    has slept two seconds for each of the [n] questions it asked. *)
Theorem failed_processing_is_reported :
  download env = Downloaded ->
  (files_upload env :: files_get env
     = replicate n (Remote "PROCESSING") ++ Remote "FAILED" :: rest)%list ->
  os_remove env = None ->
  exists s',
    analyze_video_run env video_url code s
      = Some (Return (dict [("error",
                PStr "Gemini failed to process video file.")]), s') /\
    (temp_name env ∉ local_files s') /\
    slept s' = slept s + 2 * Z.of_nat n.
Proof.
  intros Hd Hseq Hrm.
  rewrite (analyze_video_ready env video_url code s n "FAILED" rest Hd Hseq)
    by discriminate.
  cbn [String.eqb Ascii.eqb Bool.eqb andb].
  unfold bind, ret. rewrite remove_present; [|apply temp_made|exact Hrm].
  eexists. split; [reflexivity|]. cbn. split; [apply temp_gone|reflexivity].
Qed.

Variable final : string.
Hypothesis Hdownload : download env = Downloaded.
Hypothesis Hready :
  (files_upload env :: files_get env
     = replicate n (Remote "PROCESSING") ++ Remote final :: rest)%list.
Hypothesis Hfinal : final <> "PROCESSING" /\ final <> "FAILED".

Lemma ready_run :
  analyze_video_run env video_url code s
  = Some (generation_step env (temp_name env) code
            (mkAiState ({[temp_name env]} ∪ local_files s)
               (slept s + 2 * Z.of_nat n))).
Proof.
  destruct Hfinal as [Hp Hf].
  rewrite (analyze_video_ready env video_url code s n final rest
             Hdownload Hready Hp).
  apply String.eqb_neq in Hf. now rewrite Hf.
Qed.

(** X19: when the generation fails (the model call raises, or its answer
    has no text), the call returns the error dict with the prefixed
    message and the temporary file is left on the disk. *)
Theorem failed_generation_leaves_file msg :
  generate env code = GenerationError msg \/
  (generate env code = Generated None /\
   msg = "'NoneType' object is not subscriptable") ->
  exists s',
    analyze_video_run env video_url code s
      = Some (Return (dict [("error",
                PStr ("AI Generation Failed: " ++ msg))]), s') /\
    (temp_name env ∈ local_files s') /\
    slept s' = slept s + 2 * Z.of_nat n.
Proof.
  intros Hgen. rewrite ready_run, generation_step_run.
  destruct Hgen as [-> | [-> ->]];
    (eexists; split; [reflexivity|]; cbn; split; [apply temp_made|reflexivity]).
Qed.

(** X20: when everything answers, the call returns the cleaned text of
    the answer as a str, and the temporary file is gone. *)
Theorem clean_answer_is_returned text :
  generate env code = Generated (Some text) ->
  os_remove env = None ->
  exists s',
    analyze_video_run env video_url code s
      = Some (Return (PStr (encode (clean_text text))), s') /\
    (temp_name env ∉ local_files s') /\
    slept s' = slept s + 2 * Z.of_nat n.
Proof.
  intros Hgen Hrm. rewrite ready_run, generation_step_run, Hgen.
  rewrite remove_present; [|apply temp_made|exact Hrm].
  eexists. split; [reflexivity|]. cbn. split; [apply temp_gone|reflexivity].
Qed.

(** X21: when the model has answered but [os.remove] fails on the
    temporary file, the answer is dropped: the call returns the error dict
    of a failed generation, with the message of [os.remove], and the file
    stays. *)
Theorem cleanup_failure_discards_answer text msg :
  generate env code = Generated (Some text) ->
  os_remove env = Some msg ->
  exists s',
    analyze_video_run env video_url code s
      = Some (Return (dict [("error",
                PStr ("AI Generation Failed: " ++ msg))]), s') /\
    temp_name env ∈ local_files s'.
Proof.
  intros Hgen Hrm. rewrite ready_run, generation_step_run, Hgen.
  rewrite (remove_present_fault _ _ _ msg); [|apply temp_made|exact Hrm].
  eexists. split; [reflexivity|]. apply temp_made.
Qed.

End Runs.

Lemma failed_processing_is_reported_witness :
  exists s',
    analyze_video_run spoiled "v.mp4" (PStr "4582") one_file
      = Some (Return (dict [("error",
                PStr "Gemini failed to process video file.")]), s') /\
    (temp_name spoiled ∉ local_files s') /\
    slept s' = slept one_file + 2 * Z.of_nat 1.
Proof.
  apply (failed_processing_is_reported spoiled "v.mp4" (PStr "4582") one_file
           1 []); reflexivity.
Defined.

Lemma failed_generation_leaves_file_witness :
  exists s',
    analyze_video_run mute "v.mp4" (PStr "4582") no_files
      = Some (Return (dict [("error",
                PStr ("AI Generation Failed: " ++ "quota exceeded"))]), s') /\
    (temp_name mute ∈ local_files s') /\
    slept s' = slept no_files + 2 * Z.of_nat 0.
Proof.
  apply (failed_generation_leaves_file mute "v.mp4" (PStr "4582") no_files
           0 [] "ACTIVE" eq_refl eq_refl).
  - split; discriminate.
  - left. reflexivity.
Defined.

Lemma clean_answer_is_returned_witness :
  exists s',
    analyze_video_run (smooth fenced_answer) "v.mp4" (PStr "4582") no_files
      = Some (Return (PStr (encode (clean_text fenced_answer))), s') /\
    (temp_name (smooth fenced_answer) ∉ local_files s') /\
    slept s' = slept no_files + 2 * Z.of_nat 2.
Proof.
  apply (clean_answer_is_returned (smooth fenced_answer) "v.mp4" (PStr "4582")
           no_files 2 [] "ACTIVE" eq_refl eq_refl).
  - split; discriminate.
  - reflexivity.
  - reflexivity.
Defined.

Lemma cleanup_failure_discards_answer_witness :
  exists s',
    analyze_video_run (locked fenced_answer) "v.mp4" (PStr "4582") no_files
      = Some (Return (dict [("error",
                PStr ("AI Generation Failed: " ++ "permission denied"))]), s') /\
    temp_name (locked fenced_answer) ∈ local_files s'.
Proof.
  apply (cleanup_failure_discards_answer (locked fenced_answer) "v.mp4"
           (PStr "4582") no_files 0 [] "ACTIVE" eq_refl eq_refl)
    with (text := fenced_answer).
  - split; discriminate.
  - reflexivity.
  - reflexivity.
Defined.

(** X22: the call raises only out of its outer handler, when [os.remove]
    fails there on the temporary file: the exception is that of
    [os.remove] and the file is still on the disk. *)
Theorem raises_only_on_cleanup env video_url code s e s' :
  analyze_video_run env video_url code s = Some (Raise e, s') ->
  exists msg,
    os_remove env = Some msg /\ e = PyExc "OSError" msg /\
    temp_name env ∈ local_files s'.
Proof.
  intros Hrun.
  destruct (analyze_video_cases _ _ _ _ _ Hrun) as (s0 & _ & _ & [[e0 H]|[_ H]]).
  - rewrite handler_run in H.
    destruct (remove_if_exists env (temp_name env) s0) as [r s1] eqn:Hrem.
    destruct (remove_if_exists_files _ _ _ _ _ Hrem)
      as (_ & _ & [[-> _]|(msg & Hm & -> & -> & Hin)]).
    + discriminate.
    + injection H as -> ->. now exists msg.
  - rewrite generation_step_run in H.
    destruct (generate env code) as [[text|]|msg]; try discriminate.
    now destruct (remove_if_exists env (temp_name env) s0) as [[[]|e1] s1].
Qed.

Lemma raises_only_on_cleanup_witness :
  exists msg,
    os_remove cut_off = Some msg /\ PyExc "OSError" "permission denied"
                                    = PyExc "OSError" msg /\
    temp_name cut_off ∈ local_files (create_file (temp_name cut_off) no_files).
Proof.
  apply (raises_only_on_cleanup cut_off "v.mp4" (PStr "4582") no_files).
  vm_compute. reflexivity.
Defined.

(** X23: whatever the call returns is a value of the shape [upload_video]
    expects of it: a str, or a dict with the single key [error]. *)
Theorem returned_value_is_gateway_value env video_url code s v s' :
  analyze_video_run env video_url code s = Some (Return v, s') ->
  exists o, v = gateway_value o.
Proof.
  intros Hrun.
  destruct (analyze_video_cases _ _ _ _ _ Hrun) as (s0 & _ & _ & [[e0 H]|[_ H]]).
  - rewrite handler_run in H.
    destruct (remove_if_exists env (temp_name env) s0) as [[[]|e1] s1];
      [|discriminate].
    injection H as -> ->. now exists (GeneralError (str_exn e0)).
  - rewrite generation_step_run in H.
    destruct (generate env code) as [[text|]|msg].
    + destruct (remove_if_exists env (temp_name env) s0) as [[[]|e1] s1];
        injection H as -> ->.
      * now exists (Answered (encode (clean_text text))).
      * now exists (GenerationFailed (str_exn e1)).
    + injection H as -> ->.
      now exists (GenerationFailed "'NoneType' object is not subscriptable").
    + injection H as -> ->. now exists (GenerationFailed msg).
Qed.

Lemma returned_value_is_gateway_value_witness :
  exists o, PStr "{}" = gateway_value o.
Proof.
  apply (returned_value_is_gateway_value (smooth fenced_answer) "v.mp4"
           (PStr "4582") no_files (PStr "{}")
           (delete_file (temp_name (smooth fenced_answer))
              (mkAiState ({[temp_name (smooth fenced_answer)]} ∪ ∅) 4))).
  vm_compute. reflexivity.
Defined.

(** X24: the call comes to an end, with a value or an exception, as soon
    as the file store gives one answer that is not [PROCESSING]. *)
Theorem returns_when_store_settles env video_url code s :
  Exists (fun a => a <> Remote "PROCESSING")
    (files_upload env :: files_get env) ->
  is_Some (analyze_video_run env video_url code s).
Proof.
  intros Hex. unfold analyze_video_run.
  destruct (download env); [|eauto|eauto].
  destruct (files_upload env) as [st|msg]; [|eauto].
  destruct (wait_settles (files_get env) st
              (create_file (temp_name env) s) Hex) as [[r s2] ->].
  destruct r as [final|e]; [|eauto].
  destruct (String.eqb final "FAILED"); eauto.
Qed.

Lemma returns_when_store_settles_witness :
  is_Some (analyze_video_run (smooth fenced_answer) "v.mp4" (PStr "4582")
             no_files).
Proof.
  apply (returns_when_store_settles (smooth fenced_answer)).
  apply Exists_cons_tl, Exists_cons_tl, Exists_cons_hd. discriminate.
Defined.

(** X25: however the call ends, no local file other than its temporary
    file appears or disappears. *)
Theorem other_files_untouched env video_url code s r s' other :
  analyze_video_run env video_url code s = Some (r, s') ->
  other <> temp_name env ->
  (other ∈ local_files s' <-> other ∈ local_files s).
Proof.
  intros Hrun Hne.
  destruct (analyze_video_cases _ _ _ _ _ Hrun)
    as (s0 & _ & Hsame & [[e0 H]|[_ H]]).
  - rewrite handler_run in H.
    destruct (remove_if_exists env (temp_name env) s0) as [r1 s1] eqn:Hrem.
    destruct (remove_if_exists_files _ _ _ _ _ Hrem) as (_ & Hrest & _).
    assert (s' = s1) as -> by (destruct r1; now injection H).
    rewrite (Hrest other Hne). now apply Hsame.
  - rewrite generation_step_run in H.
    destruct (generate env code) as [[text|]|msg].
    + destruct (remove_if_exists env (temp_name env) s0) as [r1 s1] eqn:Hrem.
      destruct (remove_if_exists_files _ _ _ _ _ Hrem) as (_ & Hrest & _).
      assert (s' = s1) as -> by (destruct r1; now injection H).
      rewrite (Hrest other Hne). now apply Hsame.
    + injection H as _ <-. now apply Hsame.
    + injection H as _ <-. now apply Hsame.
Qed.

Lemma other_files_untouched_witness :
  "temp_1699999999.mp4"
    ∈ local_files (mkAiState (local_files one_file ∖ {[temp_name spoiled]}) 2)
  <-> "temp_1699999999.mp4" ∈ local_files one_file.
Proof.
  apply (other_files_untouched spoiled "v.mp4" (PStr "4582") one_file
           (Return (dict [("error",
              PStr "Gemini failed to process video file.")]))).
  - vm_compute. reflexivity.
  - vm_compute. discriminate.
Defined.

End AiExtras.

(** ** The cleaning of the answer *)

Module CleanExtras.

Lemma fence_codes : fence = [96; 96; 96]%N.
Proof. reflexivity. Qed.

Lemma fence_json_codes : fence_json = [96; 96; 96; 106; 115; 111; 110]%N.
Proof. reflexivity. Qed.

(** *** [is_prefix] and [contains] *)

Lemma is_prefix_spec p : forall s,
  is_prefix p s = true <-> exists b, s = (p ++ b)%list.
Proof.
  induction p as [|x p IH]; intros s; cbn.
  - split; [eauto|reflexivity].
  - destruct s as [|y s].
    + split; [discriminate|]. intros [b Hb]. discriminate.
    + rewrite andb_true_iff, N.eqb_eq, IH. split.
      * intros [-> [b ->]]. now exists b.
      * intros [b [= -> ->]]. eauto.
Qed.

Lemma contains_spec sub : forall s,
  contains sub s = true <-> exists a b, s = (a ++ sub ++ b)%list.
Proof.
  induction s as [|c s IH]; cbn [contains]; rewrite orb_true_iff, is_prefix_spec.
  - split.
    + intros [[b Hb]|]; [|discriminate]. now exists [], b.
    + intros (a & b & Hab). left. destruct a; [now exists b|discriminate].
  - rewrite IH. split.
    + intros [[b Hb]|(a & b & ->)]; [now exists [], b|]. now exists (c :: a), b.
    + intros ([|x a] & b & Hab); [left; now exists b|].
      right. injection Hab as -> ->. now exists a, b.
Qed.

Lemma is_prefix_fence s : is_prefix fence s = true <-> (3 <= backticks s)%nat.
Proof.
  rewrite fence_codes.
  destruct s as [|c1 [|c2 [|c3 s]]]; cbn [is_prefix backticks];
    rewrite ?(N.eqb_sym 96);
    repeat (match goal with
            | |- context [N.eqb ?c 96] => destruct (N.eqb c 96)
            end);
    cbn [andb]; split; intros H; solve [discriminate | lia | reflexivity].
Qed.

(** *** [str.replace] *)

Lemma replace_skip old new : forall s k,
  replace_from old new k s = replace_from old new 0 (drop k s).
Proof.
  induction s as [|c s IH]; intros [|k]; try reflexivity.
  cbn [replace_from drop]. apply IH.
Qed.

(** An occurrence at the head is replaced and the reading goes on behind
    it. *)
Lemma replace_hit c old new r :
  replace_from (c :: old) new 0 ((c :: old) ++ r)
  = (new ++ replace_from (c :: old) new 0 r)%list.
Proof.
  cbn [app replace_from].
  assert (Hp : is_prefix (c :: old) (c :: old ++ r) = true)
    by (apply is_prefix_spec; now exists r).
  rewrite Hp. f_equal. rewrite replace_skip. f_equal.
  cbn [length]. replace (S (length old) - 1)%nat with (length old) by lia.
  apply drop_app_length.
Qed.

(** A stretch without the first character of [old] is copied. *)
Lemma replace_plain c old new a : forall r,
  forallb (fun x => negb (N.eqb x c)) a = true ->
  replace_from (c :: old) new 0 (a ++ r)
  = (a ++ replace_from (c :: old) new 0 r)%list.
Proof.
  induction a as [|x a IH]; intros r Ha; [reflexivity|].
  cbn in Ha. apply andb_true_iff in Ha as [Hx Ha].
  cbn [app replace_from is_prefix].
  rewrite N.eqb_sym. apply negb_true_iff in Hx. rewrite Hx. cbn.
  f_equal. now apply IH.
Qed.

Lemma replace_plain_all c old new a :
  forallb (fun x => negb (N.eqb x c)) a = true ->
  replace_from (c :: old) new 0 a = a.
Proof.
  intros Ha. rewrite <- (app_nil_r a) at 1.
  rewrite replace_plain by exact Ha. cbn. apply app_nil_r.
Qed.

(** Removing the fences, read as the code reads: three backticks at the
    head go, anything else is copied. *)
Lemma remove_fence_step s :
  replace_from fence [] 0 s
  = match s with
    | [] => []
    | c :: s' =>
        if is_prefix fence s then replace_from fence [] 0 (drop 3 s)
        else c :: replace_from fence [] 0 s'
    end.
Proof.
  destruct s as [|c s]; [reflexivity|].
  cbn [replace_from]. destruct (is_prefix fence (c :: s)); [|reflexivity].
  cbn [app]. now rewrite replace_skip.
Qed.

Lemma backticks_drop s :
  (3 <= backticks s)%nat -> backticks (drop 3 s) = (backticks s - 3)%nat.
Proof.
  destruct s as [|c1 [|c2 [|c3 s]]]; cbn [backticks drop];
    repeat (match goal with
            | |- context [N.eqb ?c 96] => destruct (N.eqb c 96)
            end);
    cbn [backticks]; rewrite ?drop_0; lia.
Qed.

(** What is left of a run of backticks at the head is its length modulo
    three. *)
Lemma backticks_removed : forall n s, length s = n ->
  backticks (replace_from fence [] 0 s) = (backticks s mod 3)%nat.
Proof.
  induction n as [n IH] using lt_wf_ind. intros s Hlen.
  rewrite remove_fence_step. destruct s as [|c s]; [reflexivity|].
  destruct (is_prefix fence (c :: s)) eqn:Hp.
  - apply is_prefix_fence in Hp.
    rewrite (IH (length (drop 3 (c :: s)))); [| |reflexivity].
    + rewrite backticks_drop by exact Hp.
      replace (backticks (c :: s)) with (backticks (c :: s) - 3 + 1 * 3)%nat
        at 2 by lia.
      now rewrite Nat.Div0.mod_add.
    + rewrite length_drop. cbn in *. lia.
  - assert (Hlt : (backticks (c :: s) < 3)%nat).
    { destruct (le_lt_dec 3 (backticks (c :: s))) as [Hge|]; [|assumption].
      apply is_prefix_fence in Hge. congruence. }
    rewrite (Nat.mod_small _ _ Hlt). cbn [backticks] in *.
    destruct (N.eqb c 96); [|reflexivity].
    rewrite (IH (length s)); [| cbn in Hlen; lia | reflexivity].
    rewrite Nat.mod_small by lia. reflexivity.
Qed.

Lemma fence_removed : forall n s, length s = n ->
  contains fence (replace_from fence [] 0 s) = false.
Proof.
  induction n as [n IH] using lt_wf_ind. intros s Hlen.
  rewrite remove_fence_step. destruct s as [|c s]; [reflexivity|].
  destruct (is_prefix fence (c :: s)) eqn:Hp.
  - apply (IH (length (drop 3 (c :: s)))); [|reflexivity].
    rewrite length_drop. cbn in *. lia.
  - cbn [contains]. rewrite (IH (length s)); [| cbn in Hlen; lia | reflexivity].
    rewrite orb_false_r.
    destruct (is_prefix fence (c :: replace_from fence [] 0 s)) eqn:Hq;
      [|reflexivity].
    apply is_prefix_fence in Hq.
    pose proof (backticks_removed _ (c :: s) eq_refl) as Hb.
    rewrite remove_fence_step, Hp in Hb. rewrite Hb in Hq.
    pose proof (Nat.mod_upper_bound (backticks (c :: s)) 3). lia.
Qed.

(** *** [str.strip] *)

Lemma lstrip_head s c r : lstrip s = c :: r -> is_space c = false.
Proof.
  induction s as [|x s IH]; cbn; [discriminate|].
  destruct (is_space x) eqn:Hx; [exact IH|]. now intros [= <- <-].
Qed.

Lemma lstrip_tail s :
  exists a, s = (a ++ lstrip s)%list /\ forallb is_space a = true.
Proof.
  induction s as [|x s (a & Ha & Hsp)]; [now exists []|]. cbn.
  destruct (is_space x) eqn:Hx.
  - exists (x :: a). cbn. rewrite Hx, Hsp. split; [now f_equal|reflexivity].
  - now exists [].
Qed.

Lemma lstrip_fixed s :
  match s with c :: _ => is_space c = false | [] => True end -> lstrip s = s.
Proof. destruct s as [|c s]; [reflexivity|]. cbn. now intros ->. Qed.

Lemma lstrip_snoc c : forall s,
  is_space c = false -> lstrip (s ++ [c]) = (lstrip s ++ [c])%list.
Proof.
  intros s Hc. induction s as [|x s IH]; cbn; [now rewrite Hc|].
  now destruct (is_space x).
Qed.

Lemma rstrip_cons c r :
  is_space c = false -> rstrip (c :: r) = c :: rstrip r.
Proof.
  intros Hc. unfold rstrip. cbn [rev].
  rewrite (lstrip_snoc c (rev r) Hc), rev_app_distr. reflexivity.
Qed.

Lemma rstrip_last s front c : rstrip s = (front ++ [c])%list -> is_space c = false.
Proof.
  unfold rstrip. intros H.
  apply (f_equal (@rev N)) in H. rewrite rev_involutive, rev_app_distr in H.
  cbn in H. exact (lstrip_head _ _ _ H).
Qed.

Lemma rstrip_front s :
  exists b, s = (rstrip s ++ b)%list /\ forallb is_space b = true.
Proof.
  destruct (lstrip_tail (rev s)) as (a & Ha & Hsp).
  exists (rev a). split.
  - unfold rstrip. rewrite <- rev_app_distr, <- Ha. symmetry. apply rev_involutive.
  - rewrite forallb_forall in *. intros x Hx. apply Hsp. now apply in_rev.
Qed.

(** [strip] cuts blanks off both ends and nothing else. *)
Lemma strip_inside s :
  exists a b, s = (a ++ strip s ++ b)%list /\
              forallb is_space a = true /\ forallb is_space b = true.
Proof.
  destruct (lstrip_tail s) as (a & Ha & Hsa).
  destruct (rstrip_front (lstrip s)) as (b & Hb & Hsb).
  exists a, b. unfold strip. rewrite <- Hb. auto.
Qed.

Lemma strip_head s c r : strip s = c :: r -> is_space c = false.
Proof.
  unfold strip. destruct (lstrip s) as [|x l] eqn:Hl; [discriminate|].
  pose proof (lstrip_head _ _ _ Hl) as Hx.
  rewrite (rstrip_cons x l Hx). now intros [= <- _].
Qed.

Lemma strip_last s front c : strip s = (front ++ [c])%list -> is_space c = false.
Proof. apply rstrip_last. Qed.

(** A text without blanks at its ends is left as it is. *)
Lemma strip_fixed s :
  match s with c :: _ => is_space c = false | [] => True end ->
  match rev s with c :: _ => is_space c = false | [] => True end ->
  strip s = s.
Proof.
  intros Hh Hl. unfold strip, rstrip.
  rewrite (lstrip_fixed s Hh), (lstrip_fixed (rev s) Hl).
  apply rev_involutive.
Qed.

Section Clean.

Variable response_text : list N.

(** X26: the cleaned answer holds no Markdown fence: wherever three
    backticks stood in the answer of the model, also inside a JSON string,
    they are gone. *)
Theorem clean_text_has_no_fence :
  contains fence (clean_text response_text) = false.
Proof.
  unfold clean_text.
  set (t := str_replace fence_json [] response_text).
  assert (Hr : contains fence (str_replace fence [] t) = false)
    by (apply (fence_removed (length t)); reflexivity).
  destruct (contains fence (strip (str_replace fence [] t))) eqn:Hc;
    [|reflexivity].
  apply contains_spec in Hc as (a & b & Hab).
  destruct (strip_inside (str_replace fence [] t)) as (a0 & b0 & Hs & _).
  rewrite Hab in Hs.
  assert (Hin : contains fence (str_replace fence [] t) = true).
  { apply contains_spec. exists (a0 ++ a)%list, (b ++ b0)%list.
    rewrite Hs. now rewrite <- !app_assoc. }
  congruence.
Qed.

(** X27: the cleaned answer neither starts nor ends with a blank, so that
    stripping it again changes nothing. *)
Theorem clean_text_is_stripped :
  (forall c rest, clean_text response_text = c :: rest -> is_space c = false) /\
  (forall front c,
     clean_text response_text = (front ++ [c])%list -> is_space c = false) /\
  strip (clean_text response_text) = clean_text response_text.
Proof.
  assert (Hh : forall c rest,
             clean_text response_text = c :: rest -> is_space c = false)
    by (intros c rest; apply strip_head).
  assert (Hl : forall front c,
             clean_text response_text = (front ++ [c])%list ->
             is_space c = false)
    by (intros front c; apply strip_last).
  split; [exact Hh|]. split; [exact Hl|].
  apply strip_fixed.
  - destruct (clean_text response_text) as [|c r] eqn:E; [exact I|].
    exact (Hh c r eq_refl).
  - destruct (rev (clean_text response_text)) as [|c r] eqn:E; [exact I|].
    apply (Hl (rev r) c). apply (f_equal (@rev N)) in E.
    now rewrite rev_involutive in E.
Qed.

End Clean.

Lemma no_backtick_app a b :
  no_backtick (a ++ b) = no_backtick a && no_backtick b.
Proof. apply forallb_app. Qed.

(** The first pass leaves a closing fence alone when no [json] follows
    it. *)
Lemma closing_fence_kept b :
  no_backtick b = true -> is_prefix (Json.codes "json") b = false ->
  replace_from fence_json [] 0 (fence ++ b) = (fence ++ b)%list.
Proof.
  intros Hb Hj. rewrite fence_json_codes, fence_codes.
  assert (Hrest : replace_from [96; 96; 96; 106; 115; 111; 110]%N [] 0 b = b)
    by (apply replace_plain_all; exact Hb).
  cbn [app replace_from].
  change (is_prefix [96; 96; 96; 106; 115; 111; 110]%N (96 :: 96 :: 96 :: b))%N
    with (is_prefix (Json.codes "json") b).
  rewrite Hj.
  assert (H2 : is_prefix [96; 96; 96; 106; 115; 111; 110]%N (96 :: 96 :: b)%N
               = false).
  { destruct b as [|c b]; [reflexivity|]. cbn [no_backtick forallb] in Hb.
    apply andb_true_iff in Hb as [Hc _]. apply negb_true_iff in Hc.
    rewrite N.eqb_sym in Hc. cbn [is_prefix]. rewrite !N.eqb_refl, Hc.
    reflexivity. }
  assert (H1 : is_prefix [96; 96; 96; 106; 115; 111; 110]%N (96 :: b)%N = false).
  { destruct b as [|c b]; [reflexivity|]. cbn [no_backtick forallb] in Hb.
    apply andb_true_iff in Hb as [Hc _]. apply negb_true_iff in Hc.
    rewrite N.eqb_sym in Hc. cbn [is_prefix]. rewrite !N.eqb_refl, Hc.
    reflexivity. }
  rewrite H2, H1. now rewrite Hrest.
Qed.

(** X28: an answer wrapped in a [json] fence is unwrapped: when the text
    around and between the two fences holds no backtick, and no [json]
    follows the closing fence, what is returned is that text without the
    fences, stripped. *)
Theorem fenced_answer_is_unwrapped a body b :
  no_backtick a = true -> no_backtick body = true -> no_backtick b = true ->
  is_prefix (Json.codes "json") b = false ->
  clean_text (a ++ fence_json ++ body ++ fence ++ b)
  = strip (a ++ body ++ b).
Proof.
  intros Ha Hbody Hb Hj. unfold clean_text. f_equal.
  assert (H1 : str_replace fence_json [] (a ++ fence_json ++ body ++ fence ++ b)
               = (a ++ body ++ fence ++ b)%list).
  { unfold str_replace. rewrite fence_json_codes.
    rewrite replace_plain by exact Ha. f_equal.
    rewrite replace_hit. cbn [app].
    rewrite replace_plain by exact Hbody. f_equal.
    rewrite <- fence_json_codes. now apply closing_fence_kept. }
  rewrite H1. unfold str_replace. rewrite fence_codes.
  rewrite replace_plain by exact Ha. f_equal.
  rewrite replace_plain by exact Hbody. f_equal.
  rewrite replace_hit. cbn [app].
  now apply replace_plain_all.
Qed.

Lemma fenced_answer_is_unwrapped_witness :
  clean_text ([] ++ fence_json ++ [10; 123; 125; 10]%N ++ fence ++ [])
  = strip ([] ++ [10; 123; 125; 10]%N ++ []).
Proof.
  apply (fenced_answer_is_unwrapped [] [10; 123; 125; 10]%N []); reflexivity.
Defined.

(** X29: an answer without any backtick is only stripped. *)
Theorem plain_answer_is_stripped t :
  no_backtick t = true -> clean_text t = strip t.
Proof.
  intros Ht. unfold clean_text, str_replace. f_equal.
  rewrite fence_json_codes, fence_codes.
  rewrite (replace_plain_all _ _ _ t Ht).
  exact (replace_plain_all _ _ _ t Ht).
Qed.

Lemma plain_answer_is_stripped_witness :
  clean_text [32; 123; 125; 10]%N = strip [32; 123; 125; 10]%N.
Proof. apply (plain_answer_is_stripped [32; 123; 125; 10]%N). reflexivity. Defined.

End CleanExtras.
